(** * Verification bot: a shallow embedding of [src/bot.py]

    The bot is a set of chat handlers ([start], [handle_verification],
    [handle_contact], [help_command], [status_command]) that read and write
    two Firestore collections, [telegramVerifications] and [users], and
    answer through the chat transport.

    The handlers are embedded as computations in a state-and-exception
    monad over a [World]: the two collections, the trace of the effects
    performed so far (store accesses, replies, log lines) and a plan saying
    which of the coming calls to an external service fail. *)

From Stdlib Require Import ZArith Ascii String List Bool Lia.
From stdpp Require Import gmap strings list fin_maps.

Local Open Scope Z_scope.

(** ** Strings

    A Python [str] is kept as the byte string of its UTF-8 encoding, which
    is the form in which Firestore orders string fields. *)

Module Str.

(** The string made of the code point U+F8FF alone, which
    [handle_contact] appends to the phone number to get the upper end of
    its range; its UTF-8 encoding is the three bytes EF A3 BF. *)
Definition high_sentinel : string :=
  String "239"%char (String "163"%char (String "191"%char EmptyString)).

(** [s.lstrip('+')]: every leading ['+'] is removed. *)
Fixpoint lstrip_plus (s : string) : string :=
  match s with
  | EmptyString => EmptyString
  | String c s' => if Ascii.eqb c "+"%char then lstrip_plus s' else s
  end.

(** A run of [n] characters ['+']. *)
Fixpoint pluses (n : nat) : string :=
  match n with
  | O => EmptyString
  | S n' => String "+"%char (pluses n')
  end.

Definition starts_with_plus (s : string) : bool :=
  match s with
  | String c _ => Ascii.eqb c "+"%char
  | EmptyString => false
  end.

(** The number of ['/'] in a string. *)
Fixpoint slashes (s : string) : nat :=
  match s with
  | EmptyString => O
  | String c s' => (if Ascii.eqb c "/"%char then 1 else 0) + slashes s'
  end.

(** Truth value of a Python string: only the empty one is false. *)
Definition nonempty (s : string) : bool :=
  match s with EmptyString => false | String _ _ => true end.

(** Every byte is an ASCII character (below 128). *)
Fixpoint is_ascii (s : string) : bool :=
  match s with
  | EmptyString => true
  | String c s' => (nat_of_ascii c <? 128)%nat && is_ascii s'
  end.

End Str.

(** ** Data model *)

(** [update.effective_user]: the requester. *)
Record User := {
  user_id : Z;
  username : option string
}.

(** [update.message.contact]. *)
Record Contact := {
  contact_user_id : option Z;
  phone_number : option string
}.

(** The parts of an update the handlers read. *)
Record Update := {
  effective_user : User;
  args : list string;
  contact : Contact
}.

(** A document of [telegramVerifications]; the document id is the code. *)
Record VerificationRecord := {
  userId : option string;
  phone : option string
}.

(** A document of [users]; a field that is absent reads as [false]
    ([phoneVerified]) or [None]. *)
Record UserRecord := {
  phoneVerified : bool;
  telegramUsername : option string;
  telegramId : option Z
}.

(** Truth value of [verification_data.get('userId')]: [None] and the empty
    string are false; a true value is returned as the id. *)
Definition truthy_str (o : option string) : option string :=
  match o with
  | Some s => if Str.nonempty s then Some s else None
  | None => None
  end.

(** Truth value of [contact.user_id]: [None] and [0] are false. *)
Definition truthy_int (o : option Z) : option Z :=
  match o with
  | Some i => if i =? 0 then None else Some i
  | None => None
  end.

(** The texts sent with [reply_text], one constructor per literal. *)
Inductive Reply :=
| Welcome                 (* "Welcome to Dopamine Quiz Bot! ..." with the contact keyboard *)
| InvalidCode             (* "Invalid verification code. Please try again from the website." *)
| InvalidData             (* "Invalid verification data. Please try again from the website." *)
| UserNotFound            (* "User not found. Please try again from the website." *)
| Success                 (* "Your phone number has been verified successfully! ..." *)
| ShareOwnContact         (* "Please share your own contact information." *)
| NoPhoneNumber           (* "No phone number found in contact." *)
| NoPendingVerification   (* "No pending verification found for this phone number. ..." *)
| HelpText                (* "Dopamine Quiz Bot Help ..." *)
| AlreadyVerified         (* "Your phone number is already verified! ..." *)
| NotYetVerified          (* "Your phone number is not yet verified. ..." *)
| StartError              (* "An error occurred. Please try again." *)
| VerificationError       (* "An error occurred during verification. Please try again." *)
| ContactError            (* "An error occurred while processing your contact. Please try again." *)
| StatusError.            (* "An error occurred while checking your status. Please try again." *)

(** Exceptions, all of them subclasses of [Exception]. *)
Inductive Exn :=
| TypeError       (* raised by [await] on an object that is not awaitable *)
| NotFound        (* raised by [update] on a document that does not exist *)
| ValueError      (* raised by [document] on a path that names no document *)
| ServiceError.   (* a call to the store or to the transport failed *)

Inductive Handler := HStart | HVerification | HContact | HHelp | HStatus.

Inductive LogLine :=
| InfoVerifiedByCode (user : string) (code : string)
| InfoVerifiedByContact (user : string)
| ErrorIn (h : Handler) (e : Exn).

(** The effects a handler performs, in the order it performs them. *)
Inductive Event :=
| GetVerification (code : string)
| GetUser (user : string)
| QueryPhoneRange (lo hi : string)
| QueryTelegramId (id : Z)
| UpdateUser (user : string) (uname : option string) (id : Z)
| DeleteVerification (code : string)
| Replied (r : Reply)
| Logged (l : LogLine).

Definition is_store_access (e : Event) : bool :=
  match e with
  | Replied _ | Logged _ => false
  | _ => true
  end.

Definition is_mutation (e : Event) : bool :=
  match e with
  | UpdateUser _ _ _ | DeleteVerification _ => true
  | _ => false
  end.

(** ** The world the handlers run in *)

Record World := {
  verifications : gmap string VerificationRecord;
  users : gmap string UserRecord;
  trace : list Event;
  faults : list bool
}.

Definition set_verifications (v : gmap string VerificationRecord) (w : World) : World :=
  {| verifications := v; users := users w; trace := trace w; faults := faults w |}.

Definition set_users (u : gmap string UserRecord) (w : World) : World :=
  {| verifications := verifications w; users := u; trace := trace w; faults := faults w |}.

Definition set_faults (f : list bool) (w : World) : World :=
  {| verifications := verifications w; users := users w; trace := trace w; faults := f |}.

Definition record (e : Event) (w : World) : World :=
  {| verifications := verifications w; users := users w;
     trace := trace w ++ [e]; faults := faults w |}.

(** A world in which no call to an external service fails. *)
Definition calm (v : gmap string VerificationRecord) (u : gmap string UserRecord) : World :=
  {| verifications := v; users := u; trace := []; faults := [] |}.

(** ** The monad of handler bodies *)

Inductive Outcome (A : Type) :=
| Returned (a : A)
| Raised (e : Exn).
Arguments Returned {A} a.
Arguments Raised {A} e.

Definition M (A : Type) : Type := World -> Outcome A * World.

Definition ret {A} (a : A) : M A := fun w => (Returned a, w).

Definition bind {A B} (c : M A) (k : A -> M B) : M B :=
  fun w =>
    match c w with
    | (Returned a, w') => k a w'
    | (Raised e, w') => (Raised e, w')
    end.

Definition raise {A} (e : Exn) : M A := fun w => (Raised e, w).

(** [try: body except Exception as e: handler e]. *)
Definition try_except {A} (body : M A) (handler : Exn -> M A) : M A :=
  fun w =>
    match body w with
    | (Returned a, w') => (Returned a, w')
    | (Raised e, w') => handler e w'
    end.

Notation "x <- c1 ;; c2" := (bind c1 (fun x => c2))
  (at level 100, c1 at next level, right associativity).
Notation "c1 ;; c2" := (bind c1 (fun _ => c2))
  (at level 100, right associativity).

(** A call that leaves the process: the next entry of the fault plan says
    whether it fails; a failed call has no effect. An exhausted plan means
    no more failures. *)
Definition external {A} (call : M A) : M A :=
  fun w =>
    match faults w with
    | true :: rest => (Raised ServiceError, set_faults rest w)
    | false :: rest => call (set_faults rest w)
    | [] => call w
    end.

Definition logger (l : LogLine) : M unit :=
  fun w => (Returned tt, record (Logged l) w).

(** [update.message.reply_text(...)]. *)
Definition reply_text (r : Reply) : M unit :=
  external (fun w => (Returned tt, record (Replied r) w)).

(** ** The Firestore client

    [db = firestore.client()]. The handlers call [get], [delete] and
    [stream] and use what they return at once, and they [await] what
    [update] returns. Whether that value can be awaited depends on the
    client: the synchronous client, which is the one [firestore.client()]
    of [firebase_admin] builds, returns a plain [WriteResult]. *)

Record FirestoreClient := {
  update_awaitable : bool
}.

Definition firestore_client : FirestoreClient :=
  {| update_awaitable := false |}.

(** What [DocumentReference.update] returns. *)
Inductive WriteResult := Written.

(** [await r] for the result [r] of an [update]: a [TypeError] when the
    client's write results are not awaitable. *)
Definition await_write (db : FirestoreClient) (r : WriteResult) : M unit :=
  if update_awaitable db then ret tt else raise TypeError.

(** [collection.document(id)] joins the name of the collection and [id]
    with ['/'], splits the result at ['/'], and raises [ValueError] unless
    the number of elements is even: an [id] with an odd number of ['/'],
    such as ["a/b"], names no document. The id under which a collection
    holds a document is one element of the path and always names it. The
    call is local: it reaches neither the store nor the fault plan. *)
Definition names_document {V} (docs : gmap string V) (id : string) : bool :=
  match docs !! id with
  | Some _ => true
  | None => Nat.even (Str.slashes id)
  end.

(** [db.collection('telegramVerifications').document(code).get()]; [None]
    stands for a snapshot whose [exists] is false. *)
Definition get_verification (code : string) : M (option VerificationRecord) :=
  fun w =>
    if names_document (verifications w) code
    then external (fun w => (Returned (verifications w !! code),
                             record (GetVerification code) w)) w
    else (Raised ValueError, w).

(** [db.collection('users').document(user).get()]. *)
Definition get_user (user : string) : M (option UserRecord) :=
  fun w =>
    if names_document (users w) user
    then external (fun w => (Returned (users w !! user), record (GetUser user) w)) w
    else (Raised ValueError, w).

(** The three fields every verification writes. *)
Definition verified_by (u : User) : UserRecord :=
  {| phoneVerified := true;
     telegramUsername := username u;
     telegramId := Some (user_id u) |}.

(** [db.collection('users').document(user).update({...})] with the three
    fields of [verified_by]: Firestore refuses to update a document that
    does not exist. *)
Definition update_user (user : string) (u : User) : M WriteResult :=
  fun w =>
    if names_document (users w) user
    then external (fun w =>
           match users w !! user with
           | None => (Raised NotFound, w)
           | Some _ =>
               (Returned Written,
                record (UpdateUser user (username u) (user_id u))
                       (set_users (<[user := verified_by u]> (users w)) w))
           end) w
    else (Raised ValueError, w).

(** [reference.delete()] on a document of [telegramVerifications];
    deleting a document that is not there is not an error. *)
Definition delete_verification (code : string) : M unit :=
  external (fun w =>
    (Returned tt,
     record (DeleteVerification code)
            (set_verifications (delete code (verifications w)) w))).

(** The filter [where('phone', '>=', lo).where('phone', '<=', hi)]: the
    documents whose [phone] is a string between [lo] and [hi], both ends
    included, in the order of the UTF-8 bytes. *)
Definition phone_in_range (lo hi : string) (v : VerificationRecord) : bool :=
  match phone v with
  | Some p => String.leb lo p && String.leb p hi
  | None => false
  end.

(** Insertion sort, for the order in which a query streams its documents. *)
Fixpoint insert_in_order {A} (le : A -> A -> bool) (x : A) (l : list A) : list A :=
  match l with
  | [] => [x]
  | y :: l' => if le x y then x :: y :: l' else y :: insert_in_order le x l'
  end.

Definition in_order {A} (le : A -> A -> bool) (l : list A) : list A :=
  fold_right (insert_in_order le) [] l.

(** A range query on [phone] streams by [phone], then by document id. *)
Definition phone_then_id (a b : string * VerificationRecord) : bool :=
  match phone (snd a), phone (snd b) with
  | Some p, Some q =>
      match String.compare p q with
      | Lt => true
      | Eq => String.leb (fst a) (fst b)
      | Gt => false
      end
  | None, _ => true
  | Some _, None => false
  end.

(** The documents a range query streams, in the order it streams them. *)
Definition select_phone_range (lo hi : string)
    (vs : gmap string VerificationRecord) : list (string * VerificationRecord) :=
  in_order phone_then_id
    (List.filter (fun d => phone_in_range lo hi (snd d)) (map_to_list vs)).

Definition stream_phone_range (lo hi : string) : M (list (string * VerificationRecord)) :=
  external (fun w =>
    (Returned (select_phone_range lo hi (verifications w)),
     record (QueryPhoneRange lo hi) w)).

(** The filter [where('telegramId', '==', id)]. *)
Definition has_telegram_id (id : Z) (r : UserRecord) : bool :=
  match telegramId r with
  | Some i => i =? id
  | None => false
  end.

(** An equality query streams by document id. *)
Definition by_id {V} (a b : string * V) : bool := String.leb (fst a) (fst b).

Definition select_telegram_id (id : Z)
    (us : gmap string UserRecord) : list (string * UserRecord) :=
  in_order by_id
    (List.filter (fun d => has_telegram_id id (snd d)) (map_to_list us)).

Definition stream_telegram_id (id : Z) : M (list (string * UserRecord)) :=
  external (fun w =>
    (Returned (select_telegram_id id (users w)), record (QueryTelegramId id) w)).

(** ** The handlers *)

(** [handle_verification(update, context, verification_code)]. *)
Definition handle_verification (db : FirestoreClient) (update : Update)
    (verification_code : string) : M unit :=
  try_except
    (verification_doc <- get_verification verification_code ;;
     match verification_doc with
     | None => reply_text InvalidCode
     | Some verification_data =>
         match truthy_str (userId verification_data) with
         | None => reply_text InvalidData
         | Some user =>
             user_doc <- get_user user ;;
             match user_doc with
             | None => reply_text UserNotFound
             | Some _ =>
                 r <- update_user user (effective_user update) ;;
                 await_write db r ;;
                 delete_verification verification_code ;;
                 reply_text Success ;;
                 logger (InfoVerifiedByCode user verification_code)
             end
         end
     end)
    (fun e =>
       logger (ErrorIn HVerification e) ;;
       reply_text VerificationError).

(** [start(update, context)]. *)
Definition start (db : FirestoreClient) (update : Update) : M unit :=
  try_except
    (match args update with
     | verification_code :: _ => handle_verification db update verification_code
     | [] => reply_text Welcome
     end)
    (fun e =>
       logger (ErrorIn HStart e) ;;
       reply_text StartError).

(** The [for doc in query] loop of [handle_contact]; [found] is the flag
    the loop sets. *)
Fixpoint contact_loop (db : FirestoreClient) (update : Update)
    (query : list (string * VerificationRecord)) (found : bool) : M bool :=
  match query with
  | [] => ret found
  | (code, verification_data) :: rest =>
      match truthy_str (userId verification_data) with
      | None => contact_loop db update rest found
      | Some user =>
          r <- update_user user (effective_user update) ;;
          await_write db r ;;
          delete_verification code ;;
          logger (InfoVerifiedByContact user) ;;
          contact_loop db update rest true
      end
  end.

(** The self-contact test [user_id and user_id != update.effective_user.id]. *)
Definition foreign_contact (update : Update) : bool :=
  match truthy_int (contact_user_id (contact update)) with
  | Some i => negb (i =? user_id (effective_user update))
  | None => false
  end.

(** [handle_contact(update, context)]. *)
Definition handle_contact (db : FirestoreClient) (update : Update) : M unit :=
  try_except
    (if foreign_contact update then reply_text ShareOwnContact
     else
       match truthy_str (phone_number (contact update)) with
       | None => reply_text NoPhoneNumber
       | Some number =>
           let formatted_phone := Str.lstrip_plus number in
           query <- stream_phone_range formatted_phone
                      (String.append formatted_phone Str.high_sentinel) ;;
           found <- contact_loop db update query false ;;
           if found then reply_text Success
           else reply_text NoPendingVerification
       end)
    (fun e =>
       logger (ErrorIn HContact e) ;;
       reply_text ContactError).

(** [help_command(update, context)]: the [except] branch only logs. *)
Definition help_command (update : Update) : M unit :=
  try_except
    (reply_text HelpText)
    (fun e => logger (ErrorIn HHelp e)).

(** The [for doc in query] loop of [status_command]: [verified] becomes
    true, and the loop stops, at the first document whose [phoneVerified]
    is true. *)
Fixpoint status_loop (query : list (string * UserRecord)) : bool :=
  match query with
  | [] => false
  | (_, user_data) :: rest =>
      if phoneVerified user_data then true else status_loop rest
  end.

(** [status_command(update, context)]. *)
Definition status_command (update : Update) : M unit :=
  try_except
    (query <- stream_telegram_id (user_id (effective_user update)) ;;
     if status_loop query then reply_text AlreadyVerified
     else reply_text NotYetVerified)
    (fun e =>
       logger (ErrorIn HStatus e) ;;
       reply_text StatusError).

(** ** What the specification says, for comparison *)

Module Spec.

(** "Normalize the phone number by stripping a leading [+]": one ['+']
    is removed when there is one. *)
Definition strip_leading_plus (p : string) : string :=
  match p with
  | String c p' => if Ascii.eqb c "+"%char then p' else p
  | EmptyString => p
  end.

(** "only the first encountered in iteration order is inspected for the
    flag". *)
Definition first_record_reply (query : list (string * UserRecord)) : Reply :=
  match query with
  | (_, user_data) :: _ =>
      if phoneVerified user_data then AlreadyVerified else NotYetVerified
  | [] => NotYetVerified
  end.

End Spec.

(** ** Vocabulary of the statements *)

(** [c] takes every world to one that is [R]-related to it, however it
    ends. *)
Definition respects {A} (R : World -> World -> Prop) (c : M A) : Prop :=
  forall w, R w (snd (c w)).

(** The relations used with [respects] are preorders that do not look at
    the fault plan. *)
Class Progress (R : World -> World -> Prop) : Prop := {
  progress_refl : forall w, R w w;
  progress_trans : forall a b c, R a b -> R b c -> R a c;
  progress_faults : forall f w, R w (set_faults f w)
}.

(** The trace has grown by effects that all satisfy [P]. *)
Definition adds (P : Event -> Prop) (w w' : World) : Prop :=
  exists evs, trace w' = trace w ++ evs /\ Forall P evs.

Abbreviation emits P := (respects (adds P)).

(** The verification record stored under [code] is as it was. *)
Definition keeps_record (code : string) (w w' : World) : Prop :=
  verifications w' !! code = verifications w !! code.

(** Both collections are as they were. *)
Definition keeps_stores (w w' : World) : Prop :=
  verifications w' = verifications w /\ users w' = users w.

(** The values [c] can return. *)
Definition yields {A} (Q : A -> Prop) (c : M A) : Prop :=
  forall w a, fst (c w) = Returned a -> Q a.

(** Neither a delete of a verification record nor the success reply. *)
Definition no_completion (e : Event) : Prop :=
  e <> Replied Success /\ forall code, e <> DeleteVerification code.

(** An update of a user record is for the [userId] that a verification
    record of [vs] carries. *)
Definition update_for_stored (vs : gmap string VerificationRecord) (e : Event) : Prop :=
  forall user n i, e = UpdateUser user n i ->
    exists code v, vs !! code = Some v /\ truthy_str (userId v) = Some user.

Definition no_error_of (h : Handler) (e : Event) : Prop :=
  forall x, e <> Logged (ErrorIn h x).

Definition not_reply (r : Reply) (e : Event) : Prop := e <> Replied r.

Definition no_store_access (e : Event) : Prop := is_store_access e = false.

(** The [try]/[except] boundary of a handler that apologises: a run ends
    in one of three ways. The body finished; or it raised, the exception
    was logged and the apology sent; or it raised, the exception was
    logged and sending the apology failed, which is the one exception
    that leaves the handler. *)
Definition caught_at (h : Handler) (apology : Reply) (run : M unit) : Prop :=
  forall w, exists evs,
    trace (snd (run w)) = trace w ++ evs /\
    (   (fst (run w) = Returned tt /\ Forall (no_error_of h) evs)
     \/ (exists pre e, fst (run w) = Returned tt /\ Forall (no_error_of h) pre /\
                       evs = pre ++ [Logged (ErrorIn h e); Replied apology])
     \/ (exists pre e, fst (run w) = Raised ServiceError /\ Forall (no_error_of h) pre /\
                       evs = pre ++ [Logged (ErrorIn h e)])).

(** ** Concrete inputs *)

Module Scenario.

Local Open Scope string_scope.

Definition alice : User := {| user_id := 42; username := Some "alice" |}.

Definition pending (user number : string) : VerificationRecord :=
  {| userId := Some user; phone := Some number |}.

Definition fresh : UserRecord :=
  {| phoneVerified := false; telegramUsername := None; telegramId := None |}.

(** [/start ABC123] sent by [alice]. *)
Definition start_ABC123 : Update :=
  {| effective_user := alice; args := ["ABC123"];
     contact := {| contact_user_id := None; phone_number := None |} |}.

(** [alice] shares a contact card. *)
Definition share (id : option Z) (number : string) : Update :=
  {| effective_user := alice; args := [];
     contact := {| contact_user_id := id; phone_number := Some number |} |}.

Definition one_code : gmap string VerificationRecord :=
  {[ "ABC123" := pending "u1" "15551234567" ]}.

Definition two_codes : gmap string VerificationRecord :=
  <[ "ABC123" := pending "u1" "15551234567" ]>
    {[ "XYZ789" := pending "u2" "15551234567" ]}.

Definition two_users : gmap string UserRecord :=
  <[ "u1" := fresh ]> {[ "u2" := fresh ]}.

(** A verification record without [userId]. *)
Definition orphan (number : string) : VerificationRecord :=
  {| userId := None; phone := Some number |}.

Definition mixed_codes : gmap string VerificationRecord :=
  <[ "ABC123" := pending "u1" "15551234567" ]>
    {[ "XYZ789" := orphan "15551234567" ]}.

Definition orphan_code : gmap string VerificationRecord :=
  {[ "XYZ789" := orphan "15551234567" ]}.

(** A user record linked to [alice]'s chat identity. *)
Definition linked (verified : bool) : UserRecord :=
  {| phoneVerified := verified; telegramUsername := Some "alice";
     telegramId := Some 42 |}.

Definition linked_twice : gmap string UserRecord :=
  <[ "u1" := linked false ]> {[ "u2" := linked true ]}.

(** The digit 1 followed by the code point U+F900 (bytes EF A4 80). *)
Definition one_then_F900 : string :=
  String "1"%char
    (String "239"%char (String "164"%char (String "128"%char EmptyString))).

Definition odd_phone : gmap string VerificationRecord :=
  {[ "ABC123" := pending "u1" one_then_F900 ]}.

(** A world whose next external calls fail as [plan] says. *)
Definition troubled (plan : list bool) : World :=
  {| verifications := one_code; users := two_users; trace := []; faults := plan |}.

End Scenario.

(** ** Vocabulary of the store invariants *)

(** No user record was created or deleted. *)
Definition same_user_keys (w w' : World) : Prop :=
  dom (users w') = dom (users w).

(** No verification record was created or changed: what is stored is
    among what was stored. *)
Definition verifications_shrink (w w' : World) : Prop :=
  verifications w' ⊆ verifications w.

(** A user record is as it was or holds [V]. *)
Definition writes_only (V : UserRecord) (w w' : World) : Prop :=
  forall user, users w' !! user = users w !! user \/ users w' !! user = Some V.

(** The collection of verification records is as it was. *)
Definition keeps_verifications (w w' : World) : Prop :=
  verifications w' = verifications w.

(** The user record stored under [user] is as it was. *)
Definition keeps_user (user : string) (w w' : World) : Prop :=
  users w' !! user = users w !! user.

(** The success reply is sent only once the record of [code] is gone, and
    no record comes back. *)
Definition success_deletes (code : string) (w w' : World) : Prop :=
  verifications w' ⊆ verifications w /\
  exists evs, trace w' = trace w ++ evs /\
              (In (Replied Success) evs -> verifications w' !! code = None).

(** ** The [try] blocks of the handlers *)

(** The [try] block of [start]. *)
Definition start_try (db : FirestoreClient) (update : Update) : M unit :=
  match args update with
  | verification_code :: _ => handle_verification db update verification_code
  | [] => reply_text Welcome
  end.

(** The [try] block of [handle_verification]. *)
Definition handle_verification_try (db : FirestoreClient) (update : Update)
    (verification_code : string) : M unit :=
  verification_doc <- get_verification verification_code ;;
  match verification_doc with
  | None => reply_text InvalidCode
  | Some verification_data =>
      match truthy_str (userId verification_data) with
      | None => reply_text InvalidData
      | Some user =>
          user_doc <- get_user user ;;
          match user_doc with
          | None => reply_text UserNotFound
          | Some _ =>
              r <- update_user user (effective_user update) ;;
              await_write db r ;;
              delete_verification verification_code ;;
              reply_text Success ;;
              logger (InfoVerifiedByCode user verification_code)
          end
      end
  end.

(** The [try] block of [handle_contact]. *)
Definition handle_contact_try (db : FirestoreClient) (update : Update) : M unit :=
  if foreign_contact update then reply_text ShareOwnContact
  else
    match truthy_str (phone_number (contact update)) with
    | None => reply_text NoPhoneNumber
    | Some number =>
        let formatted_phone := Str.lstrip_plus number in
        query <- stream_phone_range formatted_phone
                   (String.append formatted_phone Str.high_sentinel) ;;
        found <- contact_loop db update query false ;;
        if found then reply_text Success
        else reply_text NoPendingVerification
    end.

(** The [try] block of [status_command]. *)
Definition status_command_try (update : Update) : M unit :=
  query <- stream_telegram_id (user_id (effective_user update)) ;;
  if status_loop query then reply_text AlreadyVerified
  else reply_text NotYetVerified.

(** The [try] block of [help_command]. *)
Definition help_command_try (update : Update) : M unit :=
  reply_text HelpText.

(** [run] is [body] behind a boundary that logs and apologises. When
    [body] returns, [run] is that run. When [body] raises [e], [run] logs
    [e] as an error of [h] and then sends [apology]: it returns when the
    reply goes out, and the failure of that reply is the one exception that
    leaves it. *)
Definition answered_at (h : Handler) (apology : Reply) (body run : M unit) : Prop :=
  forall w,
    match body w with
    | (Returned _, w1) => run w = (Returned tt, w1)
    | (Raised e, w1) =>
        let logged := record (Logged (ErrorIn h e)) w1 in
        match faults w1 with
        | [] => run w = (Returned tt, record (Replied apology) logged)
        | false :: rest =>
            run w = (Returned tt, record (Replied apology) (set_faults rest logged))
        | true :: rest => run w = (Raised ServiceError, set_faults rest logged)
        end
    end.

(** [run] is [body] behind a boundary that only logs: when [body] raises
    [e], [run] logs [e] as an error of [h] and returns. *)
Definition logged_at (h : Handler) (body run : M unit) : Prop :=
  forall w,
    match body w with
    | (Returned _, w1) => run w = (Returned tt, w1)
    | (Raised e, w1) => run w = (Returned tt, record (Logged (ErrorIn h e)) w1)
    end.

(** ** The first record the loop of [handle_contact] consumes *)

(** The user a record is consumed for, if any. *)
Definition consumer (d : string * VerificationRecord) : option string :=
  truthy_str (userId (snd d)).

(** The user of the first record of a query that names one. *)
Fixpoint first_consumer (query : list (string * VerificationRecord)) : option string :=
  match query with
  | [] => None
  | d :: rest =>
      match consumer d with
      | Some user => Some user
      | None => first_consumer rest
      end
  end.

(** What [document(user).update(...)] raises when [user] has no record:
    [ValueError] from [document] when [user] names no document, [NotFound]
    from [update] otherwise. *)
Definition missing_user_error (user : string) : Exn :=
  if Nat.even (Str.slashes user) then NotFound else ValueError.

(** ** More concrete inputs *)

Module Cases.

Local Open Scope string_scope.

(** A verification record whose [userId] is the empty string. *)
Definition blank_user : gmap string VerificationRecord :=
  {[ "ABC123" := {| userId := Some ""; phone := Some "15551234567" |} ]}.

(** A verification record that names a user who has no record. *)
Definition ghost_user : gmap string VerificationRecord :=
  {[ "ABC123" := Scenario.pending "ghost" "15551234567" ]}.

(** [/start] without an argument. *)
Definition bare_start : Update :=
  {| effective_user := Scenario.alice; args := [];
     contact := {| contact_user_id := None; phone_number := None |} |}.

(** [/start a/b]. *)
Definition start_a_b : Update :=
  {| effective_user := Scenario.alice; args := ["a/b"];
     contact := {| contact_user_id := None; phone_number := None |} |}.

(** [/start ABC123 extra]. *)
Definition start_two_args : Update :=
  {| effective_user := Scenario.alice; args := ["ABC123"; "extra"];
     contact := {| contact_user_id := None; phone_number := None |} |}.

(** A card with no phone number. *)
Definition no_phone : Update :=
  {| effective_user := Scenario.alice; args := [];
     contact := {| contact_user_id := None; phone_number := Some "" |} |}.


End Cases.

(** * Properties *)

(** ** Byte order on strings and the range of the phone query *)

Section StringOrder.

Local Open Scope string_scope.

Lemma ascii_compare_refl (c : ascii) : Ascii.compare c c = Eq.
Proof. unfold Ascii.compare. apply N.compare_refl. Qed.

Lemma string_compare_refl (s : string) : String.compare s s = Eq.
Proof.
  induction s as [|c s IH]; simpl; [reflexivity|].
  now rewrite ascii_compare_refl.
Qed.

Lemma string_compare_app (p a b : string) :
  String.compare (String.append p a) (String.append p b) = String.compare a b.
Proof.
  induction p as [|c p IH]; simpl; [reflexivity|].
  now rewrite ascii_compare_refl.
Qed.

Lemma leb_app (p a b : string) :
  String.leb (String.append p a) (String.append p b) = String.leb a b.
Proof. unfold String.leb. now rewrite string_compare_app. Qed.

Lemma leb_empty (s : string) : String.leb "" s = true.
Proof. destruct s; reflexivity. Qed.

Lemma append_empty_r (s : string) : String.append s "" = s.
Proof.
  induction s as [|c s IH]; [reflexivity|].
  change (String c (String.append s "") = String c s). now rewrite IH.
Qed.

Lemma leb_extend (p r : string) : String.leb p (String.append p r) = true.
Proof.
  rewrite <- (append_empty_r p) at 1. rewrite leb_app. apply leb_empty.
Qed.

(** A string between [p] and [p] followed by anything starts with [p]. *)
Lemma leb_between_prefix (p s q : string) :
  String.leb p q = true ->
  String.leb q (String.append p s) = true ->
  exists r, q = String.append p r.
Proof.
  revert q. induction p as [|c p IH]; intros q Hlo Hhi.
  - exists q. reflexivity.
  - destruct q as [|d q]; [discriminate Hlo|].
    unfold String.leb in Hlo, Hhi. simpl in Hlo, Hhi.
    rewrite (Ascii.compare_antisym d c) in Hhi.
    destruct (Ascii.compare c d) eqn:Hcd; simpl in Hhi; try discriminate.
    apply Ascii.compare_eq_iff in Hcd. subst d.
    destruct (IH q) as [r Hr]; [exact Hlo | exact Hhi |].
    exists r. simpl. now rewrite Hr.
Qed.

Lemma ascii_below_sentinel (c : ascii) :
  (nat_of_ascii c <? 128)%nat = true -> Ascii.compare c "239"%char = Lt.
Proof.
  intros H. apply Nat.ltb_lt in H.
  unfold Ascii.compare. apply N.compare_lt_iff.
  unfold nat_of_ascii in H.
  change (N_of_ascii "239"%char) with 239%N. lia.
Qed.

Lemma ascii_leb_sentinel (r : string) :
  Str.is_ascii r = true -> String.leb r Str.high_sentinel = true.
Proof.
  destruct r as [|c r]; [reflexivity|]. simpl.
  intros H. apply andb_true_iff in H as [Hc _].
  unfold String.leb, Str.high_sentinel. simpl.
  now rewrite (ascii_below_sentinel c Hc).
Qed.

Lemma prefix_append (p r : string) : String.prefix p (String.append p r) = true.
Proof.
  induction p as [|c p IH]; simpl; [destruct r; reflexivity|].
  destruct (ascii_dec c c) as [_|n]; [exact IH | now destruct n].
Qed.


End StringOrder.

Lemma In_insert_in_order {A} (le : A -> A -> bool) (x y : A) (l : list A) :
  In y (insert_in_order le x l) <-> y = x \/ In y l.
Proof.
  induction l as [|z l IH]; simpl.
  - intuition congruence.
  - destruct (le x z); simpl; [intuition congruence|].
    rewrite IH. intuition congruence.
Qed.

(** Putting a list in order keeps its elements. *)
Lemma In_in_order {A} (le : A -> A -> bool) (y : A) (l : list A) :
  In y (in_order le l) <-> In y l.
Proof.
  induction l as [|x l IH]; simpl; [reflexivity|].
  rewrite In_insert_in_order, IH. intuition congruence.
Qed.

(** The documents a query streams are the documents of the collection
    that pass its filter. *)
Lemma select_phone_range_spec (lo hi : string)
    (vs : gmap string VerificationRecord) (code : string) (v : VerificationRecord) :
  In (code, v) (select_phone_range lo hi vs) <->
  vs !! code = Some v /\ phone_in_range lo hi v = true.
Proof.
  unfold select_phone_range. rewrite In_in_order, filter_In. simpl.
  rewrite <- list_elem_of_In, elem_of_map_to_list. reflexivity.
Qed.

Lemma select_telegram_id_spec (id : Z)
    (us : gmap string UserRecord) (user : string) (r : UserRecord) :
  In (user, r) (select_telegram_id id us) <->
  us !! user = Some r /\ has_telegram_id id r = true.
Proof.
  unfold select_telegram_id. rewrite In_in_order, filter_In. simpl.
  rewrite <- list_elem_of_In, elem_of_map_to_list. reflexivity.
Qed.

(** The range [p .. p + U+F8FF] holds the strings [p + r] with [r] at most
    U+F8FF, and nothing else. *)
Lemma phone_in_range_iff (p : string) (v : VerificationRecord) :
  phone_in_range p (String.append p Str.high_sentinel) v = true <->
  exists r, phone v = Some (String.append p r) /\
            String.leb r Str.high_sentinel = true.
Proof.
  unfold phone_in_range. destruct (phone v) as [q|]; split.
  - intros H. apply andb_true_iff in H as [Hlo Hhi].
    destruct (leb_between_prefix p _ q Hlo Hhi) as [r ->].
    exists r. split; [reflexivity|]. now rewrite leb_app in Hhi.
  - intros [r [[= ->] Hr]]. now rewrite leb_extend, leb_app.
  - discriminate.
  - intros [r [[=] _]].
Qed.

(** ** Running the handlers when no external call fails *)

Ltac run :=
  unfold handle_verification, start, handle_contact, help_command, status_command,
    get_verification, get_user, update_user, delete_verification,
    stream_phone_range, stream_telegram_id, reply_text, logger, await_write,
    try_except, bind, ret, raise, external, calm, record,
    set_users, set_verifications, set_faults, names_document; simpl.


(** With the synchronous client the run stops at the [await]: the user
    record is written, the [TypeError] is caught, and neither the delete nor
    the success reply is reached. *)
Lemma handle_verification_sync (update : Update) (code user : string)
    (vs : gmap string VerificationRecord) (us : gmap string UserRecord)
    (v : VerificationRecord) (r : UserRecord) :
  vs !! code = Some v ->
  truthy_str (userId v) = Some user ->
  us !! user = Some r ->
  handle_verification firestore_client update code (calm vs us) =
  (Returned tt,
   {| verifications := vs;
      users := <[user := verified_by (effective_user update)]> us;
      trace := [GetVerification code; GetUser user;
                UpdateUser user (username (effective_user update))
                           (user_id (effective_user update));
                Logged (ErrorIn HVerification TypeError);
                Replied VerificationError];
      faults := [] |}).
Proof.
  intros Hv Hu Hr. run.
  repeat (progress (rewrite ?Hv, ?Hu, ?Hr, ?lookup_insert_eq; simpl)).
  reflexivity.
Qed.

(** ** Reasoning about runs *)

Section Respects.

Context (R : World -> World -> Prop) `{!Progress R}.

Lemma respects_ret {A} (a : A) : respects R (ret a).
Proof. intros w. apply progress_refl. Qed.

Lemma respects_raise {A} (e : Exn) : respects R (@raise A e).
Proof. intros w. apply progress_refl. Qed.

(** The continuation is only run on what [c] returns from [w]. *)
Lemma respects_bind_from {A B} (c : M A) (k : A -> M B) (w : World) :
  R w (snd (c w)) ->
  (forall a, fst (c w) = Returned a -> respects R (k a)) ->
  R w (snd (bind c k w)).
Proof.
  unfold bind. destruct (c w) as [[a|e] w1]; simpl; intros Hc Hk.
  - apply (progress_trans _ w1); [exact Hc | now apply Hk].
  - exact Hc.
Qed.

Lemma respects_bind_yields {A B} (Q : A -> Prop) (c : M A) (k : A -> M B) :
  respects R c -> yields Q c -> (forall a, Q a -> respects R (k a)) ->
  respects R (bind c k).
Proof.
  intros Hc Hq Hk w. apply respects_bind_from; [apply Hc|].
  intros a Ha. apply Hk. now apply (Hq w).
Qed.

Lemma respects_bind {A B} (c : M A) (k : A -> M B) :
  respects R c -> (forall a, respects R (k a)) -> respects R (bind c k).
Proof.
  intros Hc Hk. apply (respects_bind_yields (fun _ => True)); auto. now intros w a _.
Qed.

Lemma respects_try_except_from {A} (body : M A) (handler : Exn -> M A) (w : World) :
  R w (snd (body w)) -> (forall e, respects R (handler e)) ->
  R w (snd (try_except body handler w)).
Proof.
  unfold try_except. destruct (body w) as [[a|e] w1]; simpl; intros Hb Hh.
  - exact Hb.
  - apply (progress_trans _ w1); [exact Hb | apply Hh].
Qed.

Lemma respects_try_except {A} (body : M A) (handler : Exn -> M A) :
  respects R body -> (forall e, respects R (handler e)) ->
  respects R (try_except body handler).
Proof. intros Hb Hh w. apply respects_try_except_from; auto. Qed.

Lemma respects_external {A} (call : M A) : respects R call -> respects R (external call).
Proof.
  intros Hc w. unfold external. destruct (faults w) as [|[|] rest]; simpl.
  - apply Hc.
  - apply progress_faults.
  - apply (progress_trans _ (set_faults rest w)); [apply progress_faults | apply Hc].
Qed.

Lemma respects_await_write (db : FirestoreClient) (r : WriteResult) :
  respects R (await_write db r).
Proof.
  unfold await_write. destruct (update_awaitable db);
    [apply respects_ret | apply respects_raise].
Qed.

Lemma respects_logger (l : LogLine) :
  (forall w, R w (record (Logged l) w)) -> respects R (logger l).
Proof. intros H w. apply H. Qed.

Lemma respects_reply_text (r : Reply) :
  (forall w, R w (record (Replied r) w)) -> respects R (reply_text r).
Proof. intros H. apply respects_external. intros w. apply H. Qed.

Lemma respects_get_verification (code : string) :
  (forall w, R w (record (GetVerification code) w)) ->
  respects R (get_verification code).
Proof.
  intros H w. unfold get_verification.
  destruct (names_document (verifications w) code); [|apply progress_refl].
  refine (respects_external _ _ w). intros w'. apply H.
Qed.

Lemma respects_get_user (user : string) :
  (forall w, R w (record (GetUser user) w)) -> respects R (get_user user).
Proof.
  intros H w. unfold get_user.
  destruct (names_document (users w) user); [|apply progress_refl].
  refine (respects_external _ _ w). intros w'. apply H.
Qed.

Lemma respects_stream_phone_range (lo hi : string) :
  (forall w, R w (record (QueryPhoneRange lo hi) w)) ->
  respects R (stream_phone_range lo hi).
Proof. intros H. apply respects_external. intros w. apply H. Qed.

Lemma respects_stream_telegram_id (id : Z) :
  (forall w, R w (record (QueryTelegramId id) w)) ->
  respects R (stream_telegram_id id).
Proof. intros H. apply respects_external. intros w. apply H. Qed.

Lemma respects_update_user (user : string) (u : User) :
  (forall w, R w (record (UpdateUser user (username u) (user_id u))
                         (set_users (<[user := verified_by u]> (users w)) w))) ->
  respects R (update_user user u).
Proof.
  intros H w. unfold update_user.
  destruct (names_document (users w) user); [|apply progress_refl].
  refine (respects_external _ _ w). intros w'. cbv beta.
  destruct (users w' !! user); simpl; [apply H | apply progress_refl].
Qed.

Lemma respects_delete_verification (code : string) :
  (forall w, R w (record (DeleteVerification code)
                         (set_verifications (delete code (verifications w)) w))) ->
  respects R (delete_verification code).
Proof. intros H. apply respects_external. intros w. apply H. Qed.

(** The loop of [handle_contact] respects [R] when the three effects of
    each record it consumes do. *)
Lemma respects_contact_loop (db : FirestoreClient) (update : Update)
    (query : list (string * VerificationRecord)) (found : bool) :
  (forall code v user,
     In (code, v) query -> truthy_str (userId v) = Some user ->
     respects R (update_user user (effective_user update)) /\
     respects R (delete_verification code) /\
     respects R (logger (InfoVerifiedByContact user))) ->
  respects R (contact_loop db update query found).
Proof.
  revert found. induction query as [|[code v] rest IH]; intros found H; simpl.
  - apply respects_ret.
  - assert (Hrest : forall f, respects R (contact_loop db update rest f)).
    { intros f. apply IH. intros c' v' u' Hin. apply H. now right. }
    destruct (truthy_str (userId v)) as [user|] eqn:E; [|apply Hrest].
    destruct (H code v user (or_introl eq_refl) E) as [Hu [Hd Hl]].
    apply respects_bind; [exact Hu | intros r].
    apply respects_bind; [apply respects_await_write | intros _].
    apply respects_bind; [exact Hd | intros _].
    apply respects_bind; [exact Hl | intros _]. apply Hrest.
Qed.

End Respects.

(** *** The three relations *)

#[export] Instance adds_progress (P : Event -> Prop) : Progress (adds P).
Proof.
  split.
  - intros w. exists []. now rewrite app_nil_r.
  - intros a b c [e1 [E1 F1]] [e2 [E2 F2]]. exists (e1 ++ e2).
    rewrite E2, E1, app_assoc. split; [reflexivity | now apply Forall_app].
  - intros f w. exists []. simpl. now rewrite app_nil_r.
Qed.

#[export] Instance keeps_record_progress (code : string) : Progress (keeps_record code).
Proof.
  split; unfold keeps_record.
  - reflexivity.
  - intros a b c H1 H2. now rewrite H2.
  - reflexivity.
Qed.

#[export] Instance keeps_stores_progress : Progress keeps_stores.
Proof.
  split; unfold keeps_stores.
  - now split.
  - intros a b c [H1 H2] [H3 H4]. split; congruence.
  - now split.
Qed.

Lemma adds_record (P : Event -> Prop) (e : Event) (w : World) :
  P e -> adds P w (record e w).
Proof. intros H. exists [e]. split; [reflexivity | now constructor]. Qed.

Lemma adds_record_users (P : Event -> Prop) (e : Event) (u : gmap string UserRecord)
    (w : World) :
  P e -> adds P w (record e (set_users u w)).
Proof. intros H. exists [e]. split; [reflexivity | now constructor]. Qed.

Lemma adds_record_verifications (P : Event -> Prop) (e : Event)
    (v : gmap string VerificationRecord) (w : World) :
  P e -> adds P w (record e (set_verifications v w)).
Proof. intros H. exists [e]. split; [reflexivity | now constructor]. Qed.

Lemma adds_weaken (P Q : Event -> Prop) (w w' : World) :
  (forall e, P e -> Q e) -> adds P w w' -> adds Q w w'.
Proof.
  intros H [evs [E F]]. exists evs. split; [exact E|].
  eapply Forall_impl; eauto.
Qed.

(** [apply] for the lemmas above, which leave the [Progress] instance of
    their relation to be found. *)
Tactic Notation "rapply" uconstr(lem) :=
  apply lem; try solve [typeclasses eauto].

(** Breaks a handler body down to its calls; [side] proves that one
    recorded effect is allowed. *)
Ltac respects_step :=
  match goal with
  | |- respects _ (bind _ _) => rapply respects_bind; [ | intros ? ]
  | |- respects _ (try_except _ _) => rapply respects_try_except; [ | intros ? ]
  | |- respects _ (match ?x with _ => _ end) => destruct x
  | |- respects _ (if ?x then _ else _) => destruct x
  end.

Ltac respects_leaf side :=
  first
    [ rapply respects_ret | rapply respects_raise | rapply respects_await_write
    | rapply respects_logger; intros; side
    | rapply respects_reply_text; intros; side
    | rapply respects_get_verification; intros; side
    | rapply respects_get_user; intros; side
    | rapply respects_update_user; intros; side
    | rapply respects_delete_verification; intros; side
    | rapply respects_stream_phone_range; intros; side
    | rapply respects_stream_telegram_id; intros; side ].

Ltac respects_auto side := repeat respects_step; try respects_leaf side.

Ltac adds_side tac :=
  first [ apply adds_record | apply adds_record_users
        | apply adds_record_verifications ]; tac.

Ltac side_no_error := adds_side ltac:(unfold no_error_of; intros; discriminate).
Ltac side_no_completion :=
  adds_side ltac:(split; [discriminate | intros; discriminate]).
Ltac side_not_reply := adds_side ltac:(unfold not_reply; intros; discriminate).
Ltac side_no_store_access := adds_side ltac:(reflexivity).
Ltac side_update_for_stored :=
  adds_side ltac:(unfold update_for_stored; intros; discriminate).
Ltac side_keeps_stores := unfold keeps_stores; simpl; auto.
Ltac side_keeps_record := unfold keeps_record; simpl; reflexivity.

Lemma emits_contact_loop (P : Event -> Prop) (db : FirestoreClient) (update : Update)
    (query : list (string * VerificationRecord)) (found : bool) :
  (forall user, P (UpdateUser user (username (effective_user update))
                              (user_id (effective_user update)))) ->
  (forall code, P (DeleteVerification code)) ->
  (forall user, P (Logged (InfoVerifiedByContact user))) ->
  emits P (contact_loop db update query found).
Proof.
  intros Hu Hd Hl. rapply respects_contact_loop.
  intros code v user _ _. repeat split.
  - rapply respects_update_user. intros w. now apply adds_record_users.
  - rapply respects_delete_verification. intros w.
    now apply adds_record_verifications.
  - rapply respects_logger. intros w. now apply adds_record.
Qed.

(** ** The boundary of the handlers *)

Lemma try_except_caught_at (h : Handler) (apology : Reply) (body : M unit) :
  emits (no_error_of h) body ->
  caught_at h apology
    (try_except body (fun e => logger (ErrorIn h e) ;; reply_text apology)).
Proof.
  intros Hb w. destruct (Hb w) as [evs [E F]]. unfold try_except.
  destruct (body w) as [[[]|e] w1]; simpl in E.
  - exists evs. split; [exact E|]. left. now split.
  - unfold bind, logger, reply_text, external. simpl.
    destruct (faults w1) as [|[|] rest]; simpl.
    + exists (evs ++ [Logged (ErrorIn h e); Replied apology]).
      rewrite E, <- !app_assoc. split; [reflexivity|].
      right; left. now exists evs, e.
    + exists (evs ++ [Logged (ErrorIn h e)]).
      rewrite E, <- !app_assoc. split; [reflexivity|].
      right; right. now exists evs, e.
    + exists (evs ++ [Logged (ErrorIn h e); Replied apology]).
      rewrite E, <- !app_assoc. split; [reflexivity|].
      right; left. now exists evs, e.
Qed.

Lemma handle_verification_caught (db : FirestoreClient) (update : Update) (code : string) :
  caught_at HVerification VerificationError (handle_verification db update code).
Proof.
  apply try_except_caught_at. respects_auto side_no_error.
Qed.

Lemma handle_verification_emits_no_start_error
    (db : FirestoreClient) (update : Update) (code : string) :
  emits (no_error_of HStart) (handle_verification db update code).
Proof. unfold handle_verification. respects_auto side_no_error. Qed.

Lemma start_caught (db : FirestoreClient) (update : Update) :
  caught_at HStart StartError (start db update).
Proof.
  apply try_except_caught_at. destruct (args update) as [|code rest].
  - respects_leaf side_no_error.
  - apply handle_verification_emits_no_start_error.
Qed.

Lemma handle_contact_caught (db : FirestoreClient) (update : Update) :
  caught_at HContact ContactError (handle_contact db update).
Proof.
  apply try_except_caught_at.
  destruct (foreign_contact update); [respects_leaf side_no_error|].
  destruct (truthy_str (phone_number (contact update))) as [number|];
    [|respects_leaf side_no_error].
  cbv zeta. rapply respects_bind; [respects_leaf side_no_error|].
  intros query. rapply respects_bind.
  - apply emits_contact_loop; unfold no_error_of; intros; discriminate.
  - intros [|]; respects_leaf side_no_error.
Qed.

Lemma status_command_caught (update : Update) :
  caught_at HStatus StatusError (status_command update).
Proof.
  apply try_except_caught_at. respects_auto side_no_error.
Qed.

(** [/help] either sends its text or, when that fails, logs the failure;
    it sends nothing else and always returns. *)
Lemma help_command_outcome (update : Update) (w : World) :
  fst (help_command update w) = Returned tt /\
  (trace (snd (help_command update w)) = trace w ++ [Replied HelpText] \/
   trace (snd (help_command update w)) = trace w ++ [Logged (ErrorIn HHelp ServiceError)]).
Proof.
  unfold help_command, try_except, reply_text, external, logger.
  destruct (faults w) as [|[|] rest]; simpl; auto.
Qed.

Lemma try_except_answered_at (h : Handler) (apology : Reply) (body : M unit) :
  answered_at h apology body
    (try_except body (fun e => logger (ErrorIn h e) ;; reply_text apology)).
Proof.
  intros w. unfold try_except. destruct (body w) as [[[]|e] w1]; [reflexivity|].
  unfold bind, logger, reply_text, external. simpl.
  destruct (faults w1) as [|[|] rest]; reflexivity.
Qed.

Lemma try_except_logged_at (h : Handler) (body : M unit) :
  logged_at h body (try_except body (fun e => logger (ErrorIn h e))).
Proof.
  intros w. unfold try_except. destruct (body w) as [[[]|e] w1]; reflexivity.
Qed.

(** C8, as amended. For [/start], verify-by-code, verify-by-contact and
    [/status], when the [try] block returns the handler returns with it, and
    every exception the [try] block raises is caught, logged as an error of
    that handler and answered with the handler's generic failure reply: the
    handler returns when that reply goes out, and the failure of that reply
    is the only exception that leaves the handler. For [/help] an exception
    of the [try] block is caught and logged, no failure reply is sent, and
    the handler returns. Seen from the trace, a run of the first four ends in
    one of three ways: the body finished; or the error was logged and the
    failure reply sent; or the error was logged and [ServiceError] left the
    handler. *)
Theorem C8_handler_boundaries (db : FirestoreClient) (update : Update) (code : string) :
  (answered_at HStart StartError (start_try db update) (start db update) /\
   answered_at HVerification VerificationError
     (handle_verification_try db update code) (handle_verification db update code) /\
   answered_at HContact ContactError
     (handle_contact_try db update) (handle_contact db update) /\
   answered_at HStatus StatusError (status_command_try update) (status_command update) /\
   logged_at HHelp (help_command_try update) (help_command update)) /\
  caught_at HStart StartError (start db update) /\
  caught_at HVerification VerificationError (handle_verification db update code) /\
  caught_at HContact ContactError (handle_contact db update) /\
  caught_at HStatus StatusError (status_command update) /\
  (forall w,
     fst (help_command update w) = Returned tt /\
     (trace (snd (help_command update w)) = trace w ++ [Replied HelpText] \/
      trace (snd (help_command update w)) =
        trace w ++ [Logged (ErrorIn HHelp ServiceError)])).
Proof.
  split.
  { split; [|split; [|split; [|split]]].
    - exact (try_except_answered_at HStart StartError (start_try db update)).
    - exact (try_except_answered_at HVerification VerificationError
               (handle_verification_try db update code)).
    - exact (try_except_answered_at HContact ContactError
               (handle_contact_try db update)).
    - exact (try_except_answered_at HStatus StatusError (status_command_try update)).
    - exact (try_except_logged_at HHelp (help_command_try update)). }
  split; [apply start_caught|].
  split; [apply handle_verification_caught|].
  split; [apply handle_contact_caught|].
  split; [apply status_command_caught|].
  intros w. apply help_command_outcome.
Qed.

(** C8 as stated fails twice. When the transport is down, [/help] logs the
    exception and sends no failure reply; and [/status], whose failure reply
    cannot be sent either, lets the exception out. *)
Lemma C8_counterexample_help_silent_status_propagates :
  help_command Scenario.start_ABC123 (Scenario.troubled [true]) =
    (Returned tt,
     {| verifications := Scenario.one_code; users := Scenario.two_users;
        trace := [Logged (ErrorIn HHelp ServiceError)]; faults := [] |}) /\
  status_command Scenario.start_ABC123 (Scenario.troubled [true; true]) =
    (Raised ServiceError,
     {| verifications := Scenario.one_code; users := Scenario.two_users;
        trace := [Logged (ErrorIn HStatus ServiceError)]; faults := [] |}).
Proof. split; reflexivity. Qed.

(** ** Phone normalization *)

Lemma lstrip_plus_no_plus (p : string) :
  Str.starts_with_plus p = false -> Str.lstrip_plus p = p.
Proof. destruct p as [|c p]; simpl; [reflexivity|]. now intros ->. Qed.

Lemma lstrip_plus_result (p : string) :
  Str.starts_with_plus (Str.lstrip_plus p) = false.
Proof.
  induction p as [|c p IH]; simpl; [reflexivity|].
  destruct (Ascii.eqb c "+"%char) eqn:E; [exact IH | simpl; exact E].
Qed.

Lemma lstrip_plus_run (p : string) :
  exists n, p = String.append (Str.pluses n) (Str.lstrip_plus p).
Proof.
  induction p as [|c p [n IH]]; simpl.
  - now exists O.
  - destruct (Ascii.eqb c "+"%char) eqn:E.
    + apply Ascii.eqb_eq in E. subst c.
      exists (S n).
      change (String "+"%char p =
              String "+"%char (String.append (Str.pluses n) (Str.lstrip_plus p))).
      now rewrite <- IH.
    + now exists O.
Qed.

(** C9, as amended. Normalization removes every leading ['+'], not one:
    a phone string is a run of ['+'] followed by its normalized value, which
    does not start with ['+']. So a string that does not start with ['+'] is
    unchanged, and a string with exactly one leading ['+'] loses it. *)
Theorem C9_normalization_strips_every_leading_plus (p : string) :
  (exists n, p = String.append (Str.pluses n) (Str.lstrip_plus p)) /\
  Str.starts_with_plus (Str.lstrip_plus p) = false /\
  (Str.starts_with_plus p = false -> Str.lstrip_plus p = p) /\
  (Str.starts_with_plus p = false ->
   Str.lstrip_plus (String "+"%char p) = p).
Proof.
  split; [apply lstrip_plus_run|].
  split; [apply lstrip_plus_result|].
  split; [apply lstrip_plus_no_plus|].
  intros H. simpl. now apply lstrip_plus_no_plus.
Qed.

Lemma C9_witness_plus_15551234567 :
  Str.lstrip_plus "15551234567" = "15551234567"%string /\
  Str.lstrip_plus "+15551234567" = "15551234567"%string.
Proof.
  split.
  - apply (proj1 (proj2 (proj2
      (C9_normalization_strips_every_leading_plus "15551234567")))).
    reflexivity.
  - apply (proj2 (proj2 (proj2
      (C9_normalization_strips_every_leading_plus "15551234567")))).
    reflexivity.
Defined.

(** C9 as stated fails on a string with two leading ['+']: removing one
    leaves ["+1"], the handler's normalization gives ["1"]. *)
Lemma C9_counterexample_two_pluses :
  Spec.strip_leading_plus "++1" = "+1"%string /\
  Str.lstrip_plus "++1" = "1"%string /\
  Str.lstrip_plus "++1" <> Spec.strip_leading_plus "++1".
Proof. repeat split; try reflexivity. discriminate. Qed.

(** ** The phone range query *)

(** The range scan in full. For a normalized phone [p] the query selects
    exactly the stored records whose phone is [p] followed by a string that
    is at most U+F8FF in byte order. Every selected record has [p] as a
    literal prefix, and a record whose phone is [p] followed by ASCII
    characters only (digits, say) is selected. *)
Lemma phone_query_is_a_range_scan (p : string)
    (vs : gmap string VerificationRecord) (code : string) (v : VerificationRecord) :
  (In (code, v) (select_phone_range p (String.append p Str.high_sentinel) vs) <->
   vs !! code = Some v /\
   exists r, phone v = Some (String.append p r) /\
             String.leb r Str.high_sentinel = true) /\
  (In (code, v) (select_phone_range p (String.append p Str.high_sentinel) vs) ->
   exists q, phone v = Some q /\ String.prefix p q = true) /\
  (forall r, vs !! code = Some v -> phone v = Some (String.append p r) ->
             Str.is_ascii r = true ->
             In (code, v) (select_phone_range p (String.append p Str.high_sentinel) vs)).
Proof.
  assert (Hiff : In (code, v) (select_phone_range p (String.append p Str.high_sentinel) vs) <->
                 vs !! code = Some v /\
                 exists r, phone v = Some (String.append p r) /\
                           String.leb r Str.high_sentinel = true).
  { rewrite select_phone_range_spec, phone_in_range_iff. reflexivity. }
  split; [exact Hiff|]. split.
  - intros H. apply Hiff in H as [_ [r [Hr _]]].
    exists (String.append p r). split; [exact Hr | apply prefix_append].
  - intros r Hv Hp Ha. apply Hiff. split; [exact Hv|].
    exists r. split; [exact Hp | now apply ascii_leb_sentinel].
Qed.

(** Beyond the sentinel the scan and the prefix part ways: the phone
    ["1" + U+F900], which no phone number is, has ["1"] as a literal prefix,
    and the query for ["1"] does not select its record. *)
Lemma prefix_beyond_the_sentinel_not_selected :
  Scenario.odd_phone !! "ABC123"%string =
    Some (Scenario.pending "u1" Scenario.one_then_F900) /\
  String.prefix "1" Scenario.one_then_F900 = true /\
  select_phone_range "1" (String.append "1" Str.high_sentinel) Scenario.odd_phone = [].
Proof. repeat split; vm_compute; reflexivity. Qed.




(** ** The status check *)

Lemma status_loop_true (query : list (string * UserRecord)) :
  status_loop query = true <->
  exists user r, In (user, r) query /\ phoneVerified r = true.
Proof.
  induction query as [|[user r] rest IH]; simpl.
  - split; [discriminate | intros [? [? [[] _]]]].
  - destruct (phoneVerified r) eqn:E.
    + split; [|reflexivity]. intros _. exists user, r. auto.
    + rewrite IH. split.
      * intros [u' [r' [Hin Hv]]]. exists u', r'. auto.
      * intros [u' [r' [[Heq|Hin] Hv]]].
        -- injection Heq as <- <-. congruence.
        -- exists u', r'. auto.
Qed.

(** C7, as amended. [/status] queries the user records whose [telegramId]
    is the requester's id and replies "already verified" exactly when some
    record among them has [phoneVerified] true, wherever it comes in the
    iteration; it replies "not yet verified" otherwise, in particular when
    no record matches. The stores are left as they were. *)
Theorem C7_status_reply_any_verified_record (update : Update)
    (vs : gmap string VerificationRecord) (us : gmap string UserRecord) :
  exists reply,
    status_command update (calm vs us) =
      (Returned tt,
       {| verifications := vs; users := us;
          trace := [QueryTelegramId (user_id (effective_user update)); Replied reply];
          faults := [] |}) /\
    (reply = AlreadyVerified \/ reply = NotYetVerified) /\
    (reply = AlreadyVerified <->
     exists user r, us !! user = Some r /\
                    telegramId r = Some (user_id (effective_user update)) /\
                    phoneVerified r = true).
Proof.
  set (id := user_id (effective_user update)).
  assert (Hloop : status_loop (select_telegram_id id us) = true <->
                  exists user r, us !! user = Some r /\ telegramId r = Some id /\
                                 phoneVerified r = true).
  { rewrite status_loop_true. split.
    - intros [user [r [Hin Hv]]]. apply select_telegram_id_spec in Hin as [Hl Ht].
      exists user, r. repeat split; auto.
      unfold has_telegram_id in Ht. destruct (telegramId r) as [i|]; [|discriminate].
      apply Z.eqb_eq in Ht. now subst i.
    - intros [user [r [Hl [Ht Hv]]]]. exists user, r. split; [|exact Hv].
      apply select_telegram_id_spec. split; [exact Hl|].
      unfold has_telegram_id. rewrite Ht. apply Z.eqb_refl. }
  run. fold id. destruct (status_loop (select_telegram_id id us)) eqn:E; simpl.
  - exists AlreadyVerified. repeat split; auto. intros _. now apply Hloop.
  - exists NotYetVerified. repeat split; auto; [discriminate|].
    intros H. apply Hloop in H. discriminate.
Qed.

(** C7 as stated fails when two records carry the requester's id and the
    first one met is not verified while the second is: the first record
    alone would give "not yet verified", the handler replies "already
    verified". *)
Lemma C7_counterexample_second_record_verified :
  select_telegram_id 42 Scenario.linked_twice =
    [("u1"%string, Scenario.linked false); ("u2"%string, Scenario.linked true)] /\
  Spec.first_record_reply (select_telegram_id 42 Scenario.linked_twice) = NotYetVerified /\
  status_command Scenario.start_ABC123 (calm Scenario.one_code Scenario.linked_twice) =
    (Returned tt,
     {| verifications := Scenario.one_code; users := Scenario.linked_twice;
        trace := [QueryTelegramId 42; Replied AlreadyVerified]; faults := [] |}).
Proof. repeat split; vm_compute; reflexivity. Qed.

(** ** Verify by code *)

Lemma handle_verification_unknown_code (db : FirestoreClient) (update : Update)
    (code : string) (vs : gmap string VerificationRecord) (us : gmap string UserRecord) :
  vs !! code = None ->
  Nat.even (Str.slashes code) = true ->
  handle_verification db update code (calm vs us) =
  (Returned tt,
   {| verifications := vs; users := us;
      trace := [GetVerification code; Replied InvalidCode]; faults := [] |}).
Proof. intros H He. run. now rewrite H, He. Qed.

(** A code that names no document and has no record: [document] raises
    before any read, and the reply is the generic failure text. *)
Lemma handle_verification_no_document (db : FirestoreClient) (update : Update)
    (code : string) (vs : gmap string VerificationRecord) (us : gmap string UserRecord) :
  vs !! code = None ->
  Nat.even (Str.slashes code) = false ->
  handle_verification db update code (calm vs us) =
  (Returned tt,
   {| verifications := vs; users := us;
      trace := [Logged (ErrorIn HVerification ValueError); Replied VerificationError];
      faults := [] |}).
Proof. intros H He. run. now rewrite H, He. Qed.

(** With the synchronous client the loop of [handle_contact] raises at
    the first record it tries to consume: it never sets [found]. *)
Lemma sync_contact_loop_yields (update : Update)
    (query : list (string * VerificationRecord)) :
  yields (fun found => found = false)
         (contact_loop firestore_client update query false).
Proof.
  induction query as [|[code v] rest IH]; intros w a; simpl.
  - now intros [= <-].
  - destruct (truthy_str (userId v)) as [user|]; [|apply IH].
    unfold bind. destruct (update_user user (effective_user update) w) as [[r|e] w1];
      simpl; discriminate.
Qed.

Lemma sync_contact_loop_emits (update : Update)
    (query : list (string * VerificationRecord)) (found : bool) :
  emits no_completion (contact_loop firestore_client update query found).
Proof.
  revert found. induction query as [|[code v] rest IH]; intros found; simpl.
  - rapply respects_ret.
  - destruct (truthy_str (userId v)) as [user|]; [|apply IH].
    rapply respects_bind; [respects_leaf side_no_completion|].
    intros r w. simpl. apply progress_refl.
Qed.

(** With the synchronous client neither handler ever deletes a
    verification record or sends the success reply, whatever the stores
    hold and whatever the update is. *)
Lemma sync_client_never_completes (update : Update) (code : string) :
  emits no_completion (handle_verification firestore_client update code) /\
  emits no_completion (handle_contact firestore_client update).
Proof.
  split.
  - rapply respects_try_except; [|intros e; respects_auto side_no_completion].
    rapply respects_bind; [respects_leaf side_no_completion|].
    intros [v|]; [|respects_leaf side_no_completion].
    destruct (truthy_str (userId v)) as [user|]; [|respects_leaf side_no_completion].
    rapply respects_bind; [respects_leaf side_no_completion|].
    intros [r|]; [|respects_leaf side_no_completion].
    rapply respects_bind; [respects_leaf side_no_completion|].
    intros x w. simpl. apply progress_refl.
  - rapply respects_try_except; [|intros e; respects_auto side_no_completion].
    destruct (foreign_contact update); [respects_leaf side_no_completion|].
    destruct (truthy_str (phone_number (contact update))) as [number|];
      [|respects_leaf side_no_completion].
    cbv zeta. rapply respects_bind; [respects_leaf side_no_completion|].
    intros query.
    rapply (respects_bind_yields _ (fun found => found = false)).
    + apply sync_contact_loop_emits.
    + apply sync_contact_loop_yields.
    + intros found ->. respects_leaf side_no_completion.
Qed.

(** C1, on the code. [/start ABC123] with the record [{userId: "u1"}] and
    the user ["u1"] in the store: the handler writes the three fields on the
    user record, and then the [await] of the write's result raises; the
    verification record is not deleted and the reply is the generic failure
    text, not the success text. *)
Theorem C1_valid_code_updates_then_fails :
  let after := snd (handle_verification firestore_client Scenario.start_ABC123 "ABC123"
                      (calm Scenario.one_code Scenario.two_users)) in
  users after !! "u1"%string = Some (verified_by Scenario.alice) /\
  verifications after !! "ABC123"%string =
    Some (Scenario.pending "u1" "15551234567") /\
  trace after =
    [GetVerification "ABC123"; GetUser "u1"; UpdateUser "u1" (Some "alice"%string) 42;
     Logged (ErrorIn HVerification TypeError); Replied VerificationError].
Proof.
  rewrite (handle_verification_sync Scenario.start_ABC123 "ABC123" "u1"
             Scenario.one_code Scenario.two_users
             (Scenario.pending "u1" "15551234567") Scenario.fresh);
    try reflexivity.
  simpl. repeat split.
Qed.

(** [/start ABC123] twice with the synchronous client, with the record
    [{userId: "u1"}] and the user ["u1"] in the store at first: the first
    run marks the user verified and, stopped by the [await], sends no
    success reply and leaves the record of ["ABC123"] in the store, so the
    second run finds it again; it writes the user record once more and
    replies the generic failure text. *)
Lemma sync_client_code_redeemable_again :
  let first := snd (handle_verification firestore_client Scenario.start_ABC123 "ABC123"
                      (calm Scenario.one_code Scenario.two_users)) in
  let second := snd (handle_verification firestore_client Scenario.start_ABC123 "ABC123"
                       (calm (verifications first) (users first))) in
  trace second =
    [GetVerification "ABC123"; GetUser "u1"; UpdateUser "u1" (Some "alice"%string) 42;
     Logged (ErrorIn HVerification TypeError); Replied VerificationError] /\
  verifications second !! "ABC123"%string =
    Some (Scenario.pending "u1" "15551234567").
Proof. split; vm_compute; reflexivity. Qed.

(** ** Verify by contact *)

Lemma foreign_contact_true (update : Update) (i : Z) :
  contact_user_id (contact update) = Some i ->
  i <> 0 -> i <> user_id (effective_user update) ->
  foreign_contact update = true.
Proof.
  intros Hc H0 Hne. unfold foreign_contact, truthy_int. rewrite Hc.
  destruct (Z.eqb_spec i 0) as [|_]; [contradiction|].
  now destruct (Z.eqb_spec i (user_id (effective_user update))).
Qed.

Lemma foreign_contact_absent (update : Update) :
  contact_user_id (contact update) = None -> foreign_contact update = false.
Proof. intros Hc. unfold foreign_contact. now rewrite Hc. Qed.

Lemma select_phone_range_none (lo hi : string) (vs : gmap string VerificationRecord) :
  (forall code v, vs !! code = Some v -> phone_in_range lo hi v = false) ->
  select_phone_range lo hi vs = [].
Proof.
  intros H. destruct (select_phone_range lo hi vs) as [|[code v] rest] eqn:E;
    [reflexivity|].
  assert (Hin : In (code, v) (select_phone_range lo hi vs)) by (rewrite E; now left).
  apply select_phone_range_spec in Hin as [Hl Hr].
  rewrite (H code v Hl) in Hr. discriminate.
Qed.

Lemma stream_phone_range_returns (lo hi : string) (w : World)
    (query : list (string * VerificationRecord)) :
  fst (stream_phone_range lo hi w) = Returned query ->
  query = select_phone_range lo hi (verifications w).
Proof.
  unfold stream_phone_range, external.
  destruct (faults w) as [|[|] rest]; simpl; intros [=]; auto.
Qed.

(** Records without a [userId] are passed over: a query made of them
    alone leaves the loop without an effect and [found] as it was. *)
Lemma contact_loop_all_absent (db : FirestoreClient) (update : Update)
    (query : list (string * VerificationRecord)) (found : bool) :
  (forall code v, In (code, v) query -> truthy_str (userId v) = None) ->
  contact_loop db update query found = ret found.
Proof.
  induction query as [|[code v] rest IH]; intros H; simpl; [reflexivity|].
  rewrite (H code v (or_introl eq_refl)). apply IH.
  intros c' v' Hin. apply (H c' v'). now right.
Qed.

Lemma handle_contact_nothing_consumed (db : FirestoreClient) (update : Update)
    (number : string) (vs : gmap string VerificationRecord) (us : gmap string UserRecord) :
  foreign_contact update = false ->
  truthy_str (phone_number (contact update)) = Some number ->
  (forall code v,
     In (code, v) (select_phone_range (Str.lstrip_plus number)
                     (String.append (Str.lstrip_plus number) Str.high_sentinel) vs) ->
     truthy_str (userId v) = None) ->
  handle_contact db update (calm vs us) =
  (Returned tt,
   {| verifications := vs; users := us;
      trace := [QueryPhoneRange (Str.lstrip_plus number)
                  (String.append (Str.lstrip_plus number) Str.high_sentinel);
                Replied NoPendingVerification];
      faults := [] |}).
Proof.
  intros Hf Hp Hq. unfold handle_contact. rewrite Hf, Hp. cbv zeta.
  unfold try_except, bind at 1, stream_phone_range, external. simpl.
  unfold bind. rewrite (contact_loop_all_absent _ _ _ _ Hq). reflexivity.
Qed.

Lemma get_verification_returns (code : string) (w : World)
    (doc : option VerificationRecord) :
  fst (get_verification code w) = Returned doc -> doc = verifications w !! code.
Proof.
  unfold get_verification, external.
  destruct (names_document (verifications w) code); [|discriminate].
  destruct (faults w) as [|[|] rest]; simpl; intros [=]; auto.
Qed.

(** Whatever fails on the way, a run of verify-by-code on a code that has
    no record writes to neither collection. *)
Lemma handle_verification_unknown_code_keeps_stores (db : FirestoreClient)
    (update : Update) (code : string) (w : World) :
  verifications w !! code = None ->
  keeps_stores w (snd (handle_verification db update code w)).
Proof.
  intros Hnone. unfold handle_verification.
  rapply respects_try_except_from; [|intros e; respects_auto side_keeps_stores].
  rapply respects_bind_from.
  { generalize w. rapply respects_get_verification. intros; side_keeps_stores. }
  intros doc Hdoc. apply get_verification_returns in Hdoc.
  rewrite Hnone in Hdoc. subst doc. respects_leaf side_keeps_stores.
Qed.

(** The same for verify-by-contact when no stored record is in the range
    of the normalized phone. *)
Lemma handle_contact_no_match_keeps_stores (db : FirestoreClient)
    (update : Update) (w : World) :
  (forall number code v,
     truthy_str (phone_number (contact update)) = Some number ->
     verifications w !! code = Some v ->
     phone_in_range (Str.lstrip_plus number)
       (String.append (Str.lstrip_plus number) Str.high_sentinel) v = false) ->
  keeps_stores w (snd (handle_contact db update w)).
Proof.
  intros Hnone. unfold handle_contact.
  rapply respects_try_except_from; [|intros e; respects_auto side_keeps_stores].
  destruct (foreign_contact update).
  { generalize w. rapply respects_reply_text. intros; side_keeps_stores. }
  destruct (truthy_str (phone_number (contact update))) as [number|].
  2: { generalize w. rapply respects_reply_text. intros; side_keeps_stores. }
  cbv zeta. rapply respects_bind_from.
  { generalize w. rapply respects_stream_phone_range. intros; side_keeps_stores. }
  intros query Hq. apply stream_phone_range_returns in Hq.
  rewrite select_phone_range_none in Hq by (intros code v; now apply Hnone).
  subst query. simpl.
  rapply respects_bind; [rapply respects_ret|].
  intros [|]; respects_leaf side_keeps_stores.
Qed.

(** C3, as amended. A code with no verification record never leads to a
    write: every run of verify-by-code on it, whatever fails on the way,
    leaves both collections as they were. The reply is "invalid code" when
    the code names a document, that is when it holds an even number of
    ['/'], none in particular; a code with an odd number of ['/'] makes
    [document] raise before any read, and the reply is the generic failure
    text. A contact that passes the checks on the card and whose normalized
    phone is in the range of no stored record is answered "no pending
    verification found", the query being its only store access; with no
    record in the range every run leaves both collections as they were. *)
Theorem C3_not_found_no_mutation (db : FirestoreClient) (update : Update)
    (vs : gmap string VerificationRecord) (us : gmap string UserRecord) :
  (forall code,
     vs !! code = None ->
     Nat.even (Str.slashes code) = true ->
     handle_verification db update code (calm vs us) =
     (Returned tt,
      {| verifications := vs; users := us;
         trace := [GetVerification code; Replied InvalidCode]; faults := [] |})) /\
  (forall code,
     vs !! code = None ->
     Nat.even (Str.slashes code) = false ->
     handle_verification db update code (calm vs us) =
     (Returned tt,
      {| verifications := vs; users := us;
         trace := [Logged (ErrorIn HVerification ValueError);
                   Replied VerificationError];
         faults := [] |})) /\
  (forall number,
     foreign_contact update = false ->
     truthy_str (phone_number (contact update)) = Some number ->
     (forall code v, vs !! code = Some v ->
        phone_in_range (Str.lstrip_plus number)
          (String.append (Str.lstrip_plus number) Str.high_sentinel) v = false) ->
     handle_contact db update (calm vs us) =
     (Returned tt,
      {| verifications := vs; users := us;
         trace := [QueryPhoneRange (Str.lstrip_plus number)
                     (String.append (Str.lstrip_plus number) Str.high_sentinel);
                   Replied NoPendingVerification];
         faults := [] |})) /\
  (forall w code,
     verifications w !! code = None ->
     keeps_stores w (snd (handle_verification db update code w))) /\
  (forall w,
     (forall number code v,
        truthy_str (phone_number (contact update)) = Some number ->
        verifications w !! code = Some v ->
        phone_in_range (Str.lstrip_plus number)
          (String.append (Str.lstrip_plus number) Str.high_sentinel) v = false) ->
     keeps_stores w (snd (handle_contact db update w))).
Proof.
  split; [|split; [|split; [|split]]].
  - intros code H He. now apply handle_verification_unknown_code.
  - intros code H He. now apply handle_verification_no_document.
  - intros number Hf Hp Hnone. apply handle_contact_nothing_consumed; auto.
    rewrite (select_phone_range_none _ _ _ Hnone). intros code v [].
  - intros w code. apply handle_verification_unknown_code_keeps_stores.
  - intros w. apply handle_contact_no_match_keeps_stores.
Qed.

(** C3 as stated fails on a code with one ['/']: [/start a/b] has no
    record, and the reply is the generic failure text, not "invalid code";
    no read is made. *)
Lemma C3_counterexample_code_with_slash :
  Scenario.one_code !! "a/b"%string = None /\
  start firestore_client Cases.start_a_b (calm Scenario.one_code Scenario.two_users) =
  (Returned tt,
   {| verifications := Scenario.one_code; users := Scenario.two_users;
      trace := [Logged (ErrorIn HVerification ValueError); Replied VerificationError];
      faults := [] |}).
Proof. split; vm_compute; reflexivity. Qed.

Lemma C3_witness_unknown_code_and_phone :
  handle_verification firestore_client Scenario.start_ABC123 "NOPE"
    (calm Scenario.one_code Scenario.two_users) =
  (Returned tt,
   {| verifications := Scenario.one_code; users := Scenario.two_users;
      trace := [GetVerification "NOPE"; Replied InvalidCode]; faults := [] |}) /\
  handle_contact firestore_client (Scenario.share None "+19990000000")
    (calm Scenario.one_code Scenario.two_users) =
  (Returned tt,
   {| verifications := Scenario.one_code; users := Scenario.two_users;
      trace := [QueryPhoneRange "19990000000"
                  (String.append "19990000000" Str.high_sentinel);
                Replied NoPendingVerification];
      faults := [] |}).
Proof.
  split.
  - apply (proj1 (C3_not_found_no_mutation firestore_client Scenario.start_ABC123
                    Scenario.one_code Scenario.two_users)); reflexivity.
  - apply (proj1 (proj2 (proj2 (C3_not_found_no_mutation firestore_client
                    (Scenario.share None "+19990000000")
                    Scenario.one_code Scenario.two_users))) "+19990000000"%string);
      try reflexivity.
    intros code v H. unfold Scenario.one_code in H.
    apply lookup_singleton_Some in H as [_ <-]. reflexivity.
Defined.

(** C5, on the code. A contact whose phone matches two pending records,
    for the users ["u1"] and ["u2"]: the handler writes the three fields on
    the user record of the first record it meets, and then the [await] of
    the write's result raises. The second user is not touched, both
    verification records stay, and the one reply is the generic failure text,
    not the success text. *)
Theorem C5_two_matches_first_update_then_fails :
  let after := snd (handle_contact firestore_client
                      (Scenario.share None "+15551234567")
                      (calm Scenario.two_codes Scenario.two_users)) in
  trace after =
    [QueryPhoneRange "15551234567" (String.append "15551234567" Str.high_sentinel);
     UpdateUser "u1" (Some "alice"%string) 42;
     Logged (ErrorIn HContact TypeError); Replied ContactError] /\
  users after !! "u1"%string = Some (verified_by Scenario.alice) /\
  users after !! "u2"%string = Some Scenario.fresh /\
  verifications after !! "ABC123"%string = Some (Scenario.pending "u1" "15551234567") /\
  verifications after !! "XYZ789"%string = Some (Scenario.pending "u2" "15551234567").
Proof. repeat split; vm_compute; reflexivity. Qed.

(** The same contact with a client whose write results can be awaited:
    both users are verified, both records deleted, one success reply. *)
Lemma handle_contact_awaitable_two_matches :
  let after := snd (handle_contact {| update_awaitable := true |}
                      (Scenario.share None "+15551234567")
                      (calm Scenario.two_codes Scenario.two_users)) in
  trace after =
    [QueryPhoneRange "15551234567" (String.append "15551234567" Str.high_sentinel);
     UpdateUser "u1" (Some "alice"%string) 42; DeleteVerification "ABC123";
     Logged (InfoVerifiedByContact "u1");
     UpdateUser "u2" (Some "alice"%string) 42; DeleteVerification "XYZ789";
     Logged (InfoVerifiedByContact "u2"); Replied Success] /\
  users after !! "u1"%string = Some (verified_by Scenario.alice) /\
  users after !! "u2"%string = Some (verified_by Scenario.alice) /\
  verifications after !! "ABC123"%string = None /\
  verifications after !! "XYZ789"%string = None.
Proof. repeat split; vm_compute; reflexivity. Qed.


(** C6. A contact card that carries a user id other than the requester's
    (an id of 0 counts as none, as in the handler's test) is answered "share
    your own contact" and nothing else happens: in a run without failures
    that reply is the whole trace, and in every run the two collections are
    untouched and no store access, read or write, is made. A card without a
    user id is never answered "share your own contact". *)
Theorem C6_foreign_contact_rejected_before_store
    (db : FirestoreClient) (update : Update) :
  (forall i,
     contact_user_id (contact update) = Some i ->
     i <> 0 -> i <> user_id (effective_user update) ->
     (forall vs us,
        handle_contact db update (calm vs us) =
        (Returned tt,
         {| verifications := vs; users := us;
            trace := [Replied ShareOwnContact]; faults := [] |})) /\
     (forall w,
        keeps_stores w (snd (handle_contact db update w)) /\
        adds no_store_access w (snd (handle_contact db update w)))) /\
  (contact_user_id (contact update) = None ->
   emits (not_reply ShareOwnContact) (handle_contact db update)).
Proof.
  split.
  - intros i Hc H0 Hne.
    pose proof (foreign_contact_true update i Hc H0 Hne) as Hf.
    split.
    + intros vs us. unfold handle_contact. rewrite Hf. reflexivity.
    + intros w. unfold handle_contact. rewrite Hf. split.
      * revert w. change (respects keeps_stores
          (try_except (reply_text ShareOwnContact)
             (fun e => logger (ErrorIn HContact e) ;; reply_text ContactError))).
        respects_auto side_keeps_stores.
      * revert w. change (emits no_store_access
          (try_except (reply_text ShareOwnContact)
             (fun e => logger (ErrorIn HContact e) ;; reply_text ContactError))).
        respects_auto side_no_store_access.
  - intros Hc. unfold handle_contact. rewrite (foreign_contact_absent update Hc).
    rapply respects_try_except; [|intros e; respects_auto side_not_reply].
    destruct (truthy_str (phone_number (contact update))) as [number|];
      [|respects_leaf side_not_reply].
    cbv zeta. rapply respects_bind; [respects_leaf side_not_reply|].
    intros query. rapply respects_bind.
    + apply emits_contact_loop; unfold not_reply; intros; discriminate.
    + intros [|]; respects_leaf side_not_reply.
Qed.

Lemma C6_witness_card_of_someone_else :
  handle_contact firestore_client (Scenario.share (Some 7) "+15551234567")
    (calm Scenario.two_codes Scenario.two_users) =
  (Returned tt,
   {| verifications := Scenario.two_codes; users := Scenario.two_users;
      trace := [Replied ShareOwnContact]; faults := [] |}) /\
  emits (not_reply ShareOwnContact)
    (handle_contact firestore_client (Scenario.share None "+15551234567")).
Proof.
  split.
  - destruct (proj1 (C6_foreign_contact_rejected_before_store firestore_client
                       (Scenario.share (Some 7) "+15551234567")) 7) as [H _];
      [reflexivity | lia | simpl; lia | apply H].
  - apply (proj2 (C6_foreign_contact_rejected_before_store firestore_client
                    (Scenario.share None "+15551234567"))).
    reflexivity.
Defined.

(** A record without [userId] is still in the store after
    [handle_contact], whatever else the handler did and however it ended. *)
Lemma handle_contact_keeps_absent (db : FirestoreClient) (update : Update)
    (w : World) (code : string) (v : VerificationRecord) :
  verifications w !! code = Some v ->
  truthy_str (userId v) = None ->
  keeps_record code w (snd (handle_contact db update w)).
Proof.
  intros Hv Habsent. unfold handle_contact.
  rapply respects_try_except_from; [|intros e; respects_auto side_keeps_record].
  destruct (foreign_contact update).
  { clear Hv. revert w. rapply respects_reply_text. intros; side_keeps_record. }
  destruct (truthy_str (phone_number (contact update))) as [number|].
  2: { clear Hv. revert w. rapply respects_reply_text. intros; side_keeps_record. }
  cbv zeta. rapply respects_bind_from.
  { clear Hv. revert w. rapply respects_stream_phone_range. intros; side_keeps_record. }
  intros query Hq. apply stream_phone_range_returns in Hq. subst query.
  rapply respects_bind; [|intros [|]; respects_leaf side_keeps_record].
  rapply respects_contact_loop. intros code' v' user Hin Huser.
  apply select_phone_range_spec in Hin as [Hl _].
  assert (code' <> code) by (intros ->; congruence).
  split; [|split].
  - respects_leaf side_keeps_record.
  - rapply respects_delete_verification. intros w'. unfold keeps_record. simpl.
    now apply lookup_delete_ne.
  - respects_leaf side_keeps_record.
Qed.

(** Every user record [handle_contact] writes is the one named by the
    [userId] of a stored verification record. *)
Lemma handle_contact_updates_for_stored (db : FirestoreClient) (update : Update)
    (w : World) :
  adds (update_for_stored (verifications w)) w (snd (handle_contact db update w)).
Proof.
  unfold handle_contact. set (vs := verifications w).
  rapply respects_try_except_from;
    [|intros e; respects_auto side_update_for_stored].
  destruct (foreign_contact update).
  { generalize w. rapply respects_reply_text. intros; side_update_for_stored. }
  destruct (truthy_str (phone_number (contact update))) as [number|].
  2: { generalize w. rapply respects_reply_text. intros; side_update_for_stored. }
  cbv zeta. rapply respects_bind_from.
  { generalize w. rapply respects_stream_phone_range. intros; side_update_for_stored. }
  intros query Hq. apply stream_phone_range_returns in Hq. subst query.
  rapply respects_bind; [|intros [|]; respects_leaf side_update_for_stored].
  rapply respects_contact_loop. intros code v user Hin Huser.
  apply select_phone_range_spec in Hin as [Hl _].
  split; [|split].
  - rapply respects_update_user. intros w'. apply adds_record_users.
    intros user' n i [= <- _ _]. now exists code, v.
  - respects_leaf side_update_for_stored.
  - respects_leaf side_update_for_stored.
Qed.

(** C10. A verification record whose [userId] is absent (or empty, which
    the handler's test treats alike) is passed over by verify-by-contact: it
    is still in the store when the handler is done, every user record the
    handler writes is named by the [userId] of a stored record, and when the
    matching records all lack a [userId] the run changes nothing and replies
    "no pending verification found", not success. *)
Theorem C10_absent_user_id_passed_over (db : FirestoreClient) (update : Update) :
  (forall w code v,
     verifications w !! code = Some v ->
     truthy_str (userId v) = None ->
     verifications (snd (handle_contact db update w)) !! code = Some v) /\
  (forall w,
     adds (update_for_stored (verifications w)) w (snd (handle_contact db update w))) /\
  (forall number vs us,
     foreign_contact update = false ->
     truthy_str (phone_number (contact update)) = Some number ->
     (forall code v,
        In (code, v) (select_phone_range (Str.lstrip_plus number)
                        (String.append (Str.lstrip_plus number) Str.high_sentinel) vs) ->
        truthy_str (userId v) = None) ->
     handle_contact db update (calm vs us) =
     (Returned tt,
      {| verifications := vs; users := us;
         trace := [QueryPhoneRange (Str.lstrip_plus number)
                     (String.append (Str.lstrip_plus number) Str.high_sentinel);
                   Replied NoPendingVerification];
         faults := [] |})).
Proof.
  split; [|split].
  - intros w code v Hv Habsent.
    rewrite <- Hv. now apply (handle_contact_keeps_absent db update w code v).
  - apply handle_contact_updates_for_stored.
  - intros number vs us. apply handle_contact_nothing_consumed.
Qed.

Lemma C10_witness_orphan_record :
  verifications
    (snd (handle_contact {| update_awaitable := true |}
            (Scenario.share None "+15551234567")
            (calm Scenario.mixed_codes Scenario.two_users))) !! "XYZ789"%string =
    Some (Scenario.orphan "15551234567") /\
  handle_contact firestore_client (Scenario.share None "+15551234567")
    (calm Scenario.orphan_code Scenario.two_users) =
  (Returned tt,
   {| verifications := Scenario.orphan_code; users := Scenario.two_users;
      trace := [QueryPhoneRange "15551234567"
                  (String.append "15551234567" Str.high_sentinel);
                Replied NoPendingVerification];
      faults := [] |}).
Proof.
  split.
  - apply (proj1 (C10_absent_user_id_passed_over {| update_awaitable := true |}
                    (Scenario.share None "+15551234567"))
             (calm Scenario.mixed_codes Scenario.two_users) "XYZ789"%string
             (Scenario.orphan "15551234567")); vm_compute; reflexivity.
  - apply (proj2 (proj2 (C10_absent_user_id_passed_over firestore_client
                    (Scenario.share None "+15551234567")))
             "+15551234567"%string); try reflexivity.
    intros code v Hin.
    destruct (proj1 (select_phone_range_spec _ _ _ _ _) Hin) as [Hl _].
    unfold Scenario.orphan_code in Hl.
    apply lookup_singleton_Some in Hl as [_ <-]. reflexivity.
Defined.

(** * Further properties of the handlers *)

(** ** Verify by code: the branches that turn a code down *)

Lemma get_user_returns (user : string) (w : World) (doc : option UserRecord) :
  fst (get_user user w) = Returned doc -> doc = users w !! user.
Proof.
  unfold get_user, external.
  destruct (names_document (users w) user); [|discriminate].
  destruct (faults w) as [|[|] rest]; simpl; intros [=]; auto.
Qed.

Lemma get_verification_keeps_stores (code : string) (w : World) :
  keeps_stores w (snd (get_verification code w)).
Proof.
  generalize w. rapply respects_get_verification. intros; side_keeps_stores.
Qed.

(** Whatever fails on the way, verify-by-code writes nothing unless the
    code has a record, the record names a user and that user has a record. *)
Lemma handle_verification_keeps_stores_unless (db : FirestoreClient)
    (update : Update) (code : string) (w : World) :
  (forall v user,
     verifications w !! code = Some v ->
     truthy_str (userId v) = Some user ->
     users w !! user = None) ->
  keeps_stores w (snd (handle_verification db update code w)).
Proof.
  intros Hno. unfold handle_verification.
  rapply respects_try_except_from; [|intros e; respects_auto side_keeps_stores].
  unfold bind at 1.
  pose proof (get_verification_keeps_stores code w) as [Hv1 Hu1].
  pose proof (get_verification_returns code w) as Hdoc.
  destruct (get_verification code w) as [[doc|e] w1]; simpl in *;
    [|now split].
  specialize (Hdoc doc eq_refl). subst doc.
  destruct (verifications w !! code) as [v|] eqn:Ev.
  2: { apply (progress_trans _ w1); [now split|].
       generalize w1. rapply respects_reply_text. intros; side_keeps_stores. }
  destruct (truthy_str (userId v)) as [user|] eqn:Eu.
  2: { apply (progress_trans _ w1); [now split|].
       generalize w1. rapply respects_reply_text. intros; side_keeps_stores. }
  apply (progress_trans _ w1); [now split|].
  rapply respects_bind_from.
  { generalize w1. rapply respects_get_user. intros; side_keeps_stores. }
  intros udoc Hudoc. apply get_user_returns in Hudoc.
  rewrite Hu1, (Hno v user eq_refl Eu) in Hudoc. subst udoc.
  respects_leaf side_keeps_stores.
Qed.

(** X1. A verification record whose [userId] is absent or empty is
    answered "invalid verification data": the user collection is not even
    read, the record stays, and no run, whatever fails in it, writes to
    either collection. *)
Theorem handle_verification_record_without_user (db : FirestoreClient)
    (update : Update) (code : string) (v : VerificationRecord) :
  truthy_str (userId v) = None ->
  (forall vs us,
     vs !! code = Some v ->
     handle_verification db update code (calm vs us) =
     (Returned tt,
      {| verifications := vs; users := us;
         trace := [GetVerification code; Replied InvalidData]; faults := [] |})) /\
  (forall w,
     verifications w !! code = Some v ->
     keeps_stores w (snd (handle_verification db update code w))).
Proof.
  intros Hu. split.
  - intros vs us Hv. run. now rewrite Hv, Hu.
  - intros w Hv. apply handle_verification_keeps_stores_unless.
    intros v' user Hv' Hu'. congruence.
Qed.

Lemma handle_verification_record_without_user_witness :
  handle_verification firestore_client Scenario.start_ABC123 "ABC123"
    (calm Cases.blank_user Scenario.two_users) =
  (Returned tt,
   {| verifications := Cases.blank_user; users := Scenario.two_users;
      trace := [GetVerification "ABC123"; Replied InvalidData]; faults := [] |}).
Proof.
  apply (proj1 (handle_verification_record_without_user firestore_client
                  Scenario.start_ABC123 "ABC123"
                  {| userId := Some ""%string; phone := Some "15551234567"%string |}
                  eq_refl)).
  reflexivity.
Defined.

(** X2. A verification record that names a user who has no record: when
    the [userId] names a document (an even number of ['/'], none in
    particular) the reply is "user not found"; when it does not, [document]
    raises after the read of the verification record and the reply is the
    generic failure text. Either way nothing is written, the record stays in
    the store, and no run, whatever fails in it, writes to either
    collection. *)
Theorem handle_verification_user_missing (db : FirestoreClient)
    (update : Update) (code user : string) (v : VerificationRecord) :
  truthy_str (userId v) = Some user ->
  (forall vs us,
     vs !! code = Some v -> us !! user = None ->
     Nat.even (Str.slashes user) = true ->
     handle_verification db update code (calm vs us) =
     (Returned tt,
      {| verifications := vs; users := us;
         trace := [GetVerification code; GetUser user; Replied UserNotFound];
         faults := [] |})) /\
  (forall vs us,
     vs !! code = Some v -> us !! user = None ->
     Nat.even (Str.slashes user) = false ->
     handle_verification db update code (calm vs us) =
     (Returned tt,
      {| verifications := vs; users := us;
         trace := [GetVerification code;
                   Logged (ErrorIn HVerification ValueError);
                   Replied VerificationError];
         faults := [] |})) /\
  (forall w,
     verifications w !! code = Some v -> users w !! user = None ->
     keeps_stores w (snd (handle_verification db update code w))).
Proof.
  intros Hu. split; [|split].
  - intros vs us Hv Hnone He. run.
    repeat (progress (rewrite ?Hv, ?Hu, ?Hnone, ?He; simpl)). reflexivity.
  - intros vs us Hv Hnone He. run.
    repeat (progress (rewrite ?Hv, ?Hu, ?Hnone, ?He; simpl)). reflexivity.
  - intros w Hv Hnone. apply handle_verification_keeps_stores_unless.
    intros v' user' Hv' Hu'. congruence.
Qed.

Lemma handle_verification_user_missing_witness :
  handle_verification firestore_client Scenario.start_ABC123 "ABC123"
    (calm Cases.ghost_user Scenario.two_users) =
  (Returned tt,
   {| verifications := Cases.ghost_user; users := Scenario.two_users;
      trace := [GetVerification "ABC123"; GetUser "ghost"; Replied UserNotFound];
      faults := [] |}).
Proof.
  apply (proj1 (handle_verification_user_missing firestore_client
                  Scenario.start_ABC123 "ABC123" "ghost"
                  (Scenario.pending "ghost" "15551234567") eq_refl));
    reflexivity.
Defined.

(** ** [/start] *)

(** X3. [/start] without an argument only sends the welcome text with the
    contact keyboard: in a run without failures that reply is the whole
    trace, and in no run is either collection read or written. *)
Theorem start_without_code_only_welcomes (db : FirestoreClient) (update : Update) :
  args update = [] ->
  (forall vs us,
     start db update (calm vs us) =
     (Returned tt,
      {| verifications := vs; users := us;
         trace := [Replied Welcome]; faults := [] |})) /\
  (forall w,
     keeps_stores w (snd (start db update w)) /\
     adds no_store_access w (snd (start db update w))).
Proof.
  intros Ha. unfold start. rewrite Ha. split; [reflexivity|].
  intros w. split.
  - revert w. change (respects keeps_stores
      (try_except (reply_text Welcome)
         (fun e => logger (ErrorIn HStart e) ;; reply_text StartError))).
    respects_auto side_keeps_stores.
  - revert w. change (emits no_store_access
      (try_except (reply_text Welcome)
         (fun e => logger (ErrorIn HStart e) ;; reply_text StartError))).
    respects_auto side_no_store_access.
Qed.

Lemma start_without_code_only_welcomes_witness :
  start firestore_client Cases.bare_start (calm Scenario.one_code Scenario.two_users) =
  (Returned tt,
   {| verifications := Scenario.one_code; users := Scenario.two_users;
      trace := [Replied Welcome]; faults := [] |}).
Proof.
  apply (proj1 (start_without_code_only_welcomes firestore_client Cases.bare_start
                  eq_refl)).
Defined.

(** X4. [/start] with arguments is verify-by-code on the first argument;
    the others are not looked at. When verify-by-code returns, [/start]
    adds nothing to it. An exception leaves [/start] only after two
    failures in a row: verify-by-code logged an exception and could not send
    its failure reply, and [/start] logged that and could not send its own. *)
Theorem start_with_code_wraps_handle_verification (db : FirestoreClient)
    (update : Update) (code : string) (others : list string) (w : World) :
  args update = code :: others ->
  (fst (handle_verification db update code w) = Returned tt ->
   start db update w = handle_verification db update code w) /\
  (forall e,
     fst (start db update w) = Raised e ->
     e = ServiceError /\
     exists pre e1,
       trace (snd (start db update w)) =
       trace w ++ pre ++ [Logged (ErrorIn HVerification e1);
                          Logged (ErrorIn HStart ServiceError)]).
Proof.
  intros Ha. unfold start. rewrite Ha. unfold try_except.
  destruct (handle_verification_caught db update code w) as [evs [E Hcase]].
  destruct (handle_verification db update code w) as [[[]|e'] w1]; simpl in *.
  - split; [reflexivity | discriminate].
  - split; [discriminate|]. intros e.
    destruct Hcase as [[H _]|[(? & ? & H & _)|(pre & e1 & H & _ & Hevs)]];
      try discriminate.
    injection H as ->. subst evs.
    unfold bind, logger, reply_text, external. simpl.
    destruct (faults w1) as [|[|] rest]; simpl; try discriminate.
    intros [= <-]. split; [reflexivity|].
    exists pre, e1. rewrite E, <- !app_assoc. reflexivity.
Qed.

Lemma start_with_code_wraps_handle_verification_witness :
  start firestore_client Cases.start_two_args
    (calm Scenario.one_code Scenario.two_users) =
  handle_verification firestore_client Cases.start_two_args "ABC123"
    (calm Scenario.one_code Scenario.two_users).
Proof.
  apply (proj1 (start_with_code_wraps_handle_verification firestore_client
                  Cases.start_two_args "ABC123" ["extra"%string]
                  (calm Scenario.one_code Scenario.two_users) eq_refl)).
  vm_compute. reflexivity.
Defined.

(** ** Verify by contact: the card without a phone and the missing user *)

(** X5. A card whose phone number is missing or empty is answered "no phone
    number": in a run without failures that reply is the whole trace, and in
    no run is either collection read or written. *)
Theorem handle_contact_without_phone (db : FirestoreClient) (update : Update) :
  foreign_contact update = false ->
  truthy_str (phone_number (contact update)) = None ->
  (forall vs us,
     handle_contact db update (calm vs us) =
     (Returned tt,
      {| verifications := vs; users := us;
         trace := [Replied NoPhoneNumber]; faults := [] |})) /\
  (forall w,
     keeps_stores w (snd (handle_contact db update w)) /\
     adds no_store_access w (snd (handle_contact db update w))).
Proof.
  intros Hf Hp. unfold handle_contact. rewrite Hf, Hp. split; [reflexivity|].
  intros w. split.
  - revert w. change (respects keeps_stores
      (try_except (reply_text NoPhoneNumber)
         (fun e => logger (ErrorIn HContact e) ;; reply_text ContactError))).
    respects_auto side_keeps_stores.
  - revert w. change (emits no_store_access
      (try_except (reply_text NoPhoneNumber)
         (fun e => logger (ErrorIn HContact e) ;; reply_text ContactError))).
    respects_auto side_no_store_access.
Qed.

Lemma handle_contact_without_phone_witness :
  handle_contact firestore_client Cases.no_phone
    (calm Scenario.one_code Scenario.two_users) =
  (Returned tt,
   {| verifications := Scenario.one_code; users := Scenario.two_users;
      trace := [Replied NoPhoneNumber]; faults := [] |}).
Proof.
  apply (proj1 (handle_contact_without_phone firestore_client Cases.no_phone
                  eq_refl eq_refl)).
Defined.

(** The loop when every record that names a user names one without a
    record: the first such record makes the write raise, before anything is
    written. *)
Lemma contact_loop_users_missing (db : FirestoreClient) (update : Update)
    (query : list (string * VerificationRecord)) (found : bool) (w : World) :
  faults w = [] ->
  (forall code v user,
     In (code, v) query -> truthy_str (userId v) = Some user ->
     users w !! user = None) ->
  contact_loop db update query found w =
  (match first_consumer query with
   | Some user => Raised (missing_user_error user)
   | None => Returned found
   end, w).
Proof.
  intros Hf. induction query as [|[code v] rest IH]; intros Hmiss; simpl;
    [reflexivity|].
  unfold consumer. simpl.
  destruct (truthy_str (userId v)) as [user|] eqn:E; simpl.
  - unfold bind, update_user, names_document, external, missing_user_error.
    rewrite Hf, (Hmiss code v user (or_introl eq_refl) E).
    destruct (Nat.even (Str.slashes user)); reflexivity.
  - apply IH. intros c' v' u' Hin. apply (Hmiss c' v'). now right.
Qed.

(** X6. Verify-by-contact does not check that the user of a matching record
    exists, as verify-by-code does. When the matching records that name a
    user all name users without a record, the first of them makes the write
    fail: the reply is the generic failure text, and nothing is written or
    deleted. The exception logged is [NotFound], raised by [update], when
    that [userId] names a document, and [ValueError], raised by [document],
    when it does not. *)
Theorem handle_contact_user_missing (db : FirestoreClient) (update : Update)
    (number user : string) (vs : gmap string VerificationRecord)
    (us : gmap string UserRecord) :
  foreign_contact update = false ->
  truthy_str (phone_number (contact update)) = Some number ->
  (forall code v user',
     In (code, v) (select_phone_range (Str.lstrip_plus number)
                     (String.append (Str.lstrip_plus number) Str.high_sentinel) vs) ->
     truthy_str (userId v) = Some user' -> us !! user' = None) ->
  first_consumer (select_phone_range (Str.lstrip_plus number)
                    (String.append (Str.lstrip_plus number) Str.high_sentinel) vs) =
    Some user ->
  handle_contact db update (calm vs us) =
  (Returned tt,
   {| verifications := vs; users := us;
      trace := [QueryPhoneRange (Str.lstrip_plus number)
                  (String.append (Str.lstrip_plus number) Str.high_sentinel);
                Logged (ErrorIn HContact (missing_user_error user));
                Replied ContactError];
      faults := [] |}).
Proof.
  intros Hf Hp Hmiss Hfirst. unfold handle_contact. rewrite Hf, Hp. cbv zeta.
  unfold try_except, bind at 1, stream_phone_range, external. simpl.
  unfold bind at 1. rewrite contact_loop_users_missing; [|reflexivity|exact Hmiss].
  rewrite Hfirst. reflexivity.
Qed.

Lemma handle_contact_user_missing_witness :
  handle_contact firestore_client (Scenario.share None "+15551234567")
    (calm Cases.ghost_user Scenario.two_users) =
  (Returned tt,
   {| verifications := Cases.ghost_user; users := Scenario.two_users;
      trace := [QueryPhoneRange "15551234567"
                  (String.append "15551234567" Str.high_sentinel);
                Logged (ErrorIn HContact NotFound); Replied ContactError];
      faults := [] |}).
Proof.
  apply (handle_contact_user_missing firestore_client
           (Scenario.share None "+15551234567") "+15551234567"%string
           "ghost"%string);
    try reflexivity.
  intros code v user Hin Hu.
  destruct (proj1 (select_phone_range_spec _ _ _ _ _) Hin) as [Hl _].
  unfold Cases.ghost_user in Hl. apply lookup_singleton_Some in Hl as [_ <-].
  injection Hu as <-. reflexivity.
Defined.

(** ** What no handler does to the collections *)

#[export] Instance same_user_keys_progress : Progress same_user_keys.
Proof.
  split; unfold same_user_keys.
  - reflexivity.
  - intros a b c H1 H2. now rewrite H2.
  - reflexivity.
Qed.

#[export] Instance verifications_shrink_progress : Progress verifications_shrink.
Proof.
  split; unfold verifications_shrink.
  - reflexivity.
  - intros a b c H1 H2. now transitivity (verifications b).
  - reflexivity.
Qed.

#[export] Instance writes_only_progress (V : UserRecord) : Progress (writes_only V).
Proof.
  split; unfold writes_only.
  - intros w user. now left.
  - intros a b c H1 H2 user.
    destruct (H2 user) as [H|H]; [|now right].
    rewrite H. apply H1.
  - intros f w user. now left.
Qed.

#[export] Instance keeps_verifications_progress : Progress keeps_verifications.
Proof.
  split; unfold keeps_verifications.
  - reflexivity.
  - intros a b c H1 H2. now rewrite H2.
  - reflexivity.
Qed.

#[export] Instance keeps_user_progress (user : string) : Progress (keeps_user user).
Proof.
  split; unfold keeps_user.
  - reflexivity.
  - intros a b c H1 H2. now rewrite H2.
  - reflexivity.
Qed.

(** [update] only ever writes to a document that exists. *)
Lemma respects_update_user_existing (R : World -> World -> Prop) `{!Progress R}
    (user : string) (u : User) :
  (forall w r, users w !! user = Some r ->
     R w (record (UpdateUser user (username u) (user_id u))
                 (set_users (<[user := verified_by u]> (users w)) w))) ->
  respects R (update_user user u).
Proof.
  intros H w. unfold update_user.
  destruct (names_document (users w) user); [|apply progress_refl].
  refine (respects_external _ _ _ w). intros w'. cbv beta.
  destruct (users w' !! user) as [r|] eqn:E; simpl;
    [now apply (H w' r) | apply progress_refl].
Qed.

(** A relation that admits every effect but the two kinds of write, and is
    respected by those, is respected by the five handlers. *)
Lemma handlers_respect (R : World -> World -> Prop) `{!Progress R}
    (db : FirestoreClient) (update : Update) :
  (forall e w, is_mutation e = false -> R w (record e w)) ->
  (forall user, respects R (update_user user (effective_user update))) ->
  (forall code, respects R (delete_verification code)) ->
  (forall code, respects R (handle_verification db update code)) /\
  respects R (start db update) /\
  respects R (handle_contact db update) /\
  respects R (help_command update) /\
  respects R (status_command update).
Proof.
  intros Hpure Hupd Hdel.
  assert (Hlog : forall l, respects R (logger l)).
  { intros l. rapply respects_logger. intros w. now apply Hpure. }
  assert (Hreply : forall r, respects R (reply_text r)).
  { intros r. rapply respects_reply_text. intros w. now apply Hpure. }
  assert (Hhv : forall code, respects R (handle_verification db update code)).
  { intros code. unfold handle_verification.
    rapply respects_try_except; [|intros e; rapply respects_bind; auto].
    rapply respects_bind.
    { rapply respects_get_verification. intros w. now apply Hpure. }
    intros [v|]; [|apply Hreply].
    destruct (truthy_str (userId v)) as [user|]; [|apply Hreply].
    rapply respects_bind.
    { rapply respects_get_user. intros w. now apply Hpure. }
    intros [r|]; [|apply Hreply].
    rapply respects_bind; [apply Hupd | intros wr].
    rapply respects_bind; [rapply respects_await_write | intros _].
    rapply respects_bind; [apply Hdel | intros _].
    rapply respects_bind; [apply Hreply | intros _]. apply Hlog. }
  split; [exact Hhv|]. split; [|split; [|split]].
  - unfold start. rapply respects_try_except; [|intros e; rapply respects_bind; auto].
    destruct (args update); [apply Hreply | apply Hhv].
  - unfold handle_contact.
    rapply respects_try_except; [|intros e; rapply respects_bind; auto].
    destruct (foreign_contact update); [apply Hreply|].
    destruct (truthy_str (phone_number (contact update))); [|apply Hreply].
    cbv zeta. rapply respects_bind.
    { rapply respects_stream_phone_range. intros w. now apply Hpure. }
    intros query. rapply respects_bind.
    + rapply respects_contact_loop. intros code v user _ _. auto.
    + intros [|]; apply Hreply.
  - unfold help_command. rapply respects_try_except; [apply Hreply | auto].
  - unfold status_command.
    rapply respects_try_except; [|intros e; rapply respects_bind; auto].
    rapply respects_bind.
    { rapply respects_stream_telegram_id. intros w. now apply Hpure. }
    intros query. destruct (status_loop query); apply Hreply.
Qed.

(** X7. No handler creates or deletes a user record: whatever the update,
    the stores and the failures on the way, the user collection has the same
    document ids after a run as before. *)
Theorem handlers_keep_user_keys (db : FirestoreClient) (update : Update) :
  (forall code, respects same_user_keys (handle_verification db update code)) /\
  respects same_user_keys (start db update) /\
  respects same_user_keys (handle_contact db update) /\
  respects same_user_keys (help_command update) /\
  respects same_user_keys (status_command update).
Proof.
  rapply handlers_respect.
  - intros e w _. reflexivity.
  - intros user. rapply respects_update_user_existing.
    intros w r Hr. unfold same_user_keys. simpl.
    rewrite dom_insert_L. apply elem_of_dom_2 in Hr.
    apply subseteq_union_1_L. now apply singleton_subseteq_l.
  - intros code. rapply respects_delete_verification. intros w. reflexivity.
Qed.

(** X8. No handler creates or changes a verification record: after a run
    the collection holds a part of what it held before, each record as it
    was. *)
Theorem handlers_only_remove_verifications (db : FirestoreClient) (update : Update) :
  (forall code, respects verifications_shrink (handle_verification db update code)) /\
  respects verifications_shrink (start db update) /\
  respects verifications_shrink (handle_contact db update) /\
  respects verifications_shrink (help_command update) /\
  respects verifications_shrink (status_command update).
Proof.
  rapply handlers_respect.
  - intros e w _. unfold verifications_shrink. reflexivity.
  - intros user. rapply respects_update_user.
    intros w. unfold verifications_shrink. reflexivity.
  - intros code. rapply respects_delete_verification. intros w.
    unfold verifications_shrink. simpl. apply delete_subseteq.
Qed.

(** X9. The only thing a handler ever writes to a user record is the
    requester's three fields: after a run every user record is as it was or
    holds [phoneVerified = true] with the requester's username and id. *)
Theorem handlers_write_only_the_requester (db : FirestoreClient) (update : Update) :
  let V := verified_by (effective_user update) in
  (forall code, respects (writes_only V) (handle_verification db update code)) /\
  respects (writes_only V) (start db update) /\
  respects (writes_only V) (handle_contact db update) /\
  respects (writes_only V) (help_command update) /\
  respects (writes_only V) (status_command update).
Proof.
  intros V. rapply handlers_respect.
  - intros e w _ user. now left.
  - intros user. rapply respects_update_user. intros w user'. simpl.
    destruct (decide (user = user')) as [->|Hne].
    + right. apply lookup_insert_eq.
    + left. now apply lookup_insert_ne.
  - intros code. rapply respects_delete_verification. intros w user. now left.
Qed.

(** X10. [/help] and [/status] are read-only in every run: neither writes to
    a collection, [/help] does not touch the store at all, and [/status]
    touches it by its one query only. *)
Theorem help_and_status_are_read_only (update : Update) :
  respects keeps_stores (help_command update) /\
  emits no_store_access (help_command update) /\
  respects keeps_stores (status_command update) /\
  emits (fun e => is_store_access e = true ->
                  e = QueryTelegramId (user_id (effective_user update)))
        (status_command update).
Proof.
  split; [|split; [|split]].
  - unfold help_command. respects_auto side_keeps_stores.
  - unfold help_command. respects_auto side_no_store_access.
  - unfold status_command. respects_auto side_keeps_stores.
  - unfold status_command.
    respects_auto ltac:(adds_side ltac:(simpl; intros; congruence)).
Qed.

(** ** What a run leaves alone *)

(** X11. Verify-by-code touches one verification record and one user record
    at most: in every run the records of the other codes are as they were,
    and so is every user record but the one the code's record names. *)
Theorem handle_verification_frame (db : FirestoreClient) (update : Update)
    (code : string) (w : World) :
  (forall code',
     code' <> code ->
     keeps_record code' w (snd (handle_verification db update code w))) /\
  (forall user',
     (forall v, verifications w !! code = Some v ->
                truthy_str (userId v) <> Some user') ->
     keeps_user user' w (snd (handle_verification db update code w))).
Proof.
  split.
  - intros code' Hne.
    cut (respects (keeps_record code') (handle_verification db update code));
      [intros H; apply H|].
    unfold handle_verification.
    respects_auto ltac:(unfold keeps_record; simpl;
                        first [reflexivity | now apply lookup_delete_ne]).
  - intros user' Hother. unfold handle_verification.
    rapply respects_try_except_from;
      [|intros e; respects_auto ltac:(unfold keeps_user; reflexivity)].
    rapply respects_bind_from.
    { generalize w. rapply respects_get_verification.
      intros; unfold keeps_user; reflexivity. }
    intros doc Hdoc. apply get_verification_returns in Hdoc. subst doc.
    destruct (verifications w !! code) as [v|];
      [|respects_leaf ltac:(unfold keeps_user; reflexivity)].
    specialize (Hother v eq_refl).
    destruct (truthy_str (userId v)) as [user|];
      [|respects_leaf ltac:(unfold keeps_user; reflexivity)].
    assert (user <> user') by congruence.
    respects_auto ltac:(unfold keeps_user; simpl;
                        first [reflexivity | now apply lookup_insert_ne]).
Qed.

Lemma handle_verification_frame_witness :
  keeps_record "XYZ789"
    (calm Scenario.two_codes Scenario.two_users)
    (snd (handle_verification firestore_client Scenario.start_ABC123 "ABC123"
            (calm Scenario.two_codes Scenario.two_users))) /\
  keeps_user "u2"
    (calm Scenario.two_codes Scenario.two_users)
    (snd (handle_verification firestore_client Scenario.start_ABC123 "ABC123"
            (calm Scenario.two_codes Scenario.two_users))).
Proof.
  split.
  - apply (proj1 (handle_verification_frame firestore_client
                    Scenario.start_ABC123 "ABC123"
                    (calm Scenario.two_codes Scenario.two_users))).
    discriminate.
  - apply (proj2 (handle_verification_frame firestore_client
                    Scenario.start_ABC123 "ABC123"
                    (calm Scenario.two_codes Scenario.two_users))).
    intros v Hv. vm_compute in Hv. injection Hv as <-. discriminate.
Defined.

(** X12. Verify-by-contact leaves alone what its query does not select: in
    every run a verification record whose phone is outside the range of the
    normalized phone is as it was, and so is every user record that no
    selected record names. *)
Theorem handle_contact_frame (db : FirestoreClient) (update : Update) (w : World) :
  (forall code,
     (forall number v,
        truthy_str (phone_number (contact update)) = Some number ->
        verifications w !! code = Some v ->
        phone_in_range (Str.lstrip_plus number)
          (String.append (Str.lstrip_plus number) Str.high_sentinel) v = false) ->
     keeps_record code w (snd (handle_contact db update w))) /\
  (forall user,
     (forall number code v,
        truthy_str (phone_number (contact update)) = Some number ->
        verifications w !! code = Some v ->
        phone_in_range (Str.lstrip_plus number)
          (String.append (Str.lstrip_plus number) Str.high_sentinel) v = true ->
        truthy_str (userId v) <> Some user) ->
     keeps_user user w (snd (handle_contact db update w))).
Proof.
  split.
  - intros code Hout. unfold handle_contact.
    rapply respects_try_except_from; [|intros e; respects_auto side_keeps_record].
    destruct (foreign_contact update).
    { generalize w. rapply respects_reply_text. intros; side_keeps_record. }
    destruct (truthy_str (phone_number (contact update))) as [number|].
    2: { generalize w. rapply respects_reply_text. intros; side_keeps_record. }
    cbv zeta. rapply respects_bind_from.
    { generalize w. rapply respects_stream_phone_range. intros; side_keeps_record. }
    intros query Hq. apply stream_phone_range_returns in Hq. subst query.
    rapply respects_bind; [|intros [|]; respects_leaf side_keeps_record].
    rapply respects_contact_loop. intros code' v' user Hin Huser.
    apply select_phone_range_spec in Hin as [Hl Hr].
    assert (code' <> code).
    { intros ->. rewrite (Hout number v' eq_refl Hl) in Hr. discriminate. }
    split; [|split].
    + respects_leaf side_keeps_record.
    + rapply respects_delete_verification. intros w'. unfold keeps_record. simpl.
      now apply lookup_delete_ne.
    + respects_leaf side_keeps_record.
  - intros user Hother. unfold handle_contact.
    rapply respects_try_except_from;
      [|intros e; respects_auto ltac:(unfold keeps_user; reflexivity)].
    destruct (foreign_contact update).
    { generalize w. rapply respects_reply_text. intros; unfold keeps_user; reflexivity. }
    destruct (truthy_str (phone_number (contact update))) as [number|].
    2: { generalize w. rapply respects_reply_text.
         intros; unfold keeps_user; reflexivity. }
    cbv zeta. rapply respects_bind_from.
    { generalize w. rapply respects_stream_phone_range.
      intros; unfold keeps_user; reflexivity. }
    intros query Hq. apply stream_phone_range_returns in Hq. subst query.
    rapply respects_bind;
      [|intros [|]; respects_leaf ltac:(unfold keeps_user; reflexivity)].
    rapply respects_contact_loop. intros code' v' user' Hin Huser.
    apply select_phone_range_spec in Hin as [Hl Hr].
    assert (user' <> user).
    { intros ->. now apply (Hother number code' v' eq_refl Hl Hr). }
    split; [|split].
    + rapply respects_update_user. intros w'. unfold keeps_user. simpl.
      now apply lookup_insert_ne.
    + respects_leaf ltac:(unfold keeps_user; reflexivity).
    + respects_leaf ltac:(unfold keeps_user; reflexivity).
Qed.

Lemma handle_contact_frame_witness :
  keeps_record "ABC123"
    (calm Scenario.one_code Scenario.two_users)
    (snd (handle_contact firestore_client (Scenario.share None "+19990000000")
            (calm Scenario.one_code Scenario.two_users))).
Proof.
  apply (proj1 (handle_contact_frame firestore_client
                  (Scenario.share None "+19990000000")
                  (calm Scenario.one_code Scenario.two_users))).
  intros number v Hn Hv. injection Hn as <-.
  vm_compute in Hv. injection Hv as <-. reflexivity.
Defined.

(** ** Normalization in the handler *)

Lemma lstrip_plus_absorbs (n : nat) (p : string) :
  Str.lstrip_plus (String.append (Str.pluses n) p) = Str.lstrip_plus p.
Proof. induction n as [|n IH]; [reflexivity | exact IH]. Qed.

Lemma lstrip_plus_idempotent (p : string) :
  Str.lstrip_plus (Str.lstrip_plus p) = Str.lstrip_plus p.
Proof. apply lstrip_plus_no_plus, lstrip_plus_result. Qed.

Lemma nonempty_append (a b : string) :
  Str.nonempty b = true -> Str.nonempty (String.append a b) = true.
Proof. destruct a; [auto | reflexivity]. Qed.

(** The loop reads the requester from the update and nothing else. *)
Lemma contact_loop_requester (db : FirestoreClient) (u1 u2 : Update)
    (query : list (string * VerificationRecord)) (found : bool) :
  effective_user u1 = effective_user u2 ->
  contact_loop db u1 query found = contact_loop db u2 query found.
Proof.
  intros He. revert found.
  induction query as [|[code v] rest IH]; intros found; simpl; [reflexivity|].
  rewrite He, (IH true), (IH found). reflexivity.
Qed.

(** X13. Leading ['+'] signs make no difference to verify-by-contact: a
    card with the phone number [p], not empty, and the same card with any
    number of ['+'] put before [p] are handled alike in every world.
    Normalizing twice is normalizing once. *)
Theorem handle_contact_ignores_leading_pluses (db : FirestoreClient)
    (who : User) (arguments : list string) (id : option Z) (n : nat) (p : string) :
  Str.nonempty p = true ->
  (forall w,
     handle_contact db
       {| effective_user := who; args := arguments;
          contact := {| contact_user_id := id;
                        phone_number := Some (String.append (Str.pluses n) p) |} |} w =
     handle_contact db
       {| effective_user := who; args := arguments;
          contact := {| contact_user_id := id; phone_number := Some p |} |} w) /\
  Str.lstrip_plus (Str.lstrip_plus p) = Str.lstrip_plus p.
Proof.
  intros Hp. split; [|apply lstrip_plus_idempotent].
  intros w. unfold handle_contact, foreign_contact. simpl.
  rewrite (nonempty_append (Str.pluses n) p Hp), Hp, lstrip_plus_absorbs.
  destruct (match truthy_int id with
            | Some i => negb (i =? user_id who)
            | None => false
            end); [reflexivity|].
  unfold try_except, bind.
  destruct (stream_phone_range _ _ w) as [[query|e] w1]; [|reflexivity].
  now rewrite (contact_loop_requester db
                 {| effective_user := who; args := arguments;
                    contact := {| contact_user_id := id;
                                  phone_number :=
                                    Some (String.append (Str.pluses n) p) |} |}
                 {| effective_user := who; args := arguments;
                    contact := {| contact_user_id := id; phone_number := Some p |} |}
                 query false eq_refl).
Qed.

Lemma handle_contact_ignores_leading_pluses_witness :
  handle_contact firestore_client (Scenario.share None "++15551234567")
    (calm Scenario.two_codes Scenario.two_users) =
  handle_contact firestore_client (Scenario.share None "15551234567")
    (calm Scenario.two_codes Scenario.two_users).
Proof.
  apply (proj1 (handle_contact_ignores_leading_pluses firestore_client
                  Scenario.alice [] None 2 "15551234567" eq_refl)).
Defined.




(** ** The two clients *)

Lemma sync_contact_loop_keeps_verifications (update : Update)
    (query : list (string * VerificationRecord)) (found : bool) :
  respects keeps_verifications (contact_loop firestore_client update query found).
Proof.
  revert found. induction query as [|[code v] rest IH]; intros found; simpl.
  - rapply respects_ret.
  - destruct (truthy_str (userId v)) as [user|]; [|apply IH].
    rapply respects_bind.
    + rapply respects_update_user. intros w. reflexivity.
    + intros r w. simpl. apply progress_refl.
Qed.

(** X15. With the synchronous client, whose [update] returns a value that
    cannot be awaited, no run of [/start], verify-by-code or
    verify-by-contact deletes a verification record or sends the success
    reply, and the collection of verification records is after the run what
    it was before. *)
Theorem synchronous_client_consumes_nothing (update : Update) (code : string) :
  (emits no_completion (handle_verification firestore_client update code) /\
   respects keeps_verifications (handle_verification firestore_client update code)) /\
  (emits no_completion (start firestore_client update) /\
   respects keeps_verifications (start firestore_client update)) /\
  (emits no_completion (handle_contact firestore_client update) /\
   respects keeps_verifications (handle_contact firestore_client update)).
Proof.
  assert (Hkv : forall c,
            respects keeps_verifications (handle_verification firestore_client update c)).
  { intros c. unfold handle_verification.
    rapply respects_try_except;
      [|intros e; respects_auto ltac:(unfold keeps_verifications; reflexivity)].
    rapply respects_bind;
      [respects_leaf ltac:(unfold keeps_verifications; reflexivity)|].
    intros [v|]; [|respects_leaf ltac:(unfold keeps_verifications; reflexivity)].
    destruct (truthy_str (userId v)) as [user|];
      [|respects_leaf ltac:(unfold keeps_verifications; reflexivity)].
    rapply respects_bind;
      [respects_leaf ltac:(unfold keeps_verifications; reflexivity)|].
    intros [r|]; [|respects_leaf ltac:(unfold keeps_verifications; reflexivity)].
    rapply respects_bind;
      [respects_leaf ltac:(unfold keeps_verifications; reflexivity)|].
    intros x w. simpl. apply progress_refl. }
  split; [|split].
  - split; [apply (sync_client_never_completes update code) | apply Hkv].
  - unfold start. split.
    + rapply respects_try_except; [|intros e; respects_auto side_no_completion].
      destruct (args update) as [|c rest];
        [respects_leaf side_no_completion | apply (sync_client_never_completes update c)].
    + rapply respects_try_except;
        [|intros e; respects_auto ltac:(unfold keeps_verifications; reflexivity)].
      destruct (args update) as [|c rest];
        [respects_leaf ltac:(unfold keeps_verifications; reflexivity) | apply Hkv].
  - split; [apply (sync_client_never_completes update code)|].
    unfold handle_contact.
    rapply respects_try_except;
      [|intros e; respects_auto ltac:(unfold keeps_verifications; reflexivity)].
    destruct (foreign_contact update);
      [respects_leaf ltac:(unfold keeps_verifications; reflexivity)|].
    destruct (truthy_str (phone_number (contact update))) as [number|];
      [|respects_leaf ltac:(unfold keeps_verifications; reflexivity)].
    cbv zeta. rapply respects_bind;
      [respects_leaf ltac:(unfold keeps_verifications; reflexivity)|].
    intros query. rapply respects_bind.
    + apply sync_contact_loop_keeps_verifications.
    + intros [|]; respects_leaf ltac:(unfold keeps_verifications; reflexivity).
Qed.

(** ** A code that was redeemed *)

#[export] Instance success_deletes_progress (code : string) :
  Progress (success_deletes code).
Proof.
  split; unfold success_deletes.
  - intros w. split; [reflexivity|]. exists []. rewrite app_nil_r.
    split; [reflexivity | intros []].
  - intros a b c [S1 [e1 [E1 D1]]] [S2 [e2 [E2 D2]]]. split.
    + now transitivity (verifications b).
    + exists (e1 ++ e2). rewrite E2, E1, app_assoc. split; [reflexivity|].
      intros Hin. apply in_app_or in Hin as [Hin|Hin]; [|now apply D2].
      apply (lookup_weaken_None _ _ _ (D1 Hin) S2).
  - intros f w. split; [reflexivity|]. exists []. simpl. rewrite app_nil_r.
    split; [reflexivity | intros []].
Qed.






